(** * XYZ Plot Studio backend: parameter grid, experiment routes and executor

    A shallow embedding of the Python backend under
    [projects/xyz-plot-studio/backend/app]:

    - [models/schemas.py]: [ParameterDefinition], [ParameterGrid],
      [WorkflowConfig], [ExperimentCreate], [ExperimentResponse];
    - [services/experiment_service.py]: [ExperimentExecutor];
    - [services/workflow_generator.py]: [WorkflowGenerator];
    - [api/routes.py]: the experiment routes and the background task.

    Python integers are [Z]; Python floats are binary64 numbers
    ([PrimFloat.float]); a [dict] with string keys is a [gmap string _];
    a raised exception is the [Raise] case of [result]. *)

From Stdlib Require Import ZArith Lia.
From Stdlib Require Import Floats.PrimFloat Floats.FloatOps Floats.SpecFloat.
From Stdlib Require Import Strings.Ascii Numbers.DecimalString.
From stdpp Require Import gmap strings list.

Local Open Scope Z_scope.

(** ** Exceptions and the error monad *)

Inductive exn : Type :=
| IndexError (msg : string)
| ZeroDivisionError (msg : string)
| ValueError (msg : string)
| OverflowError (msg : string)
| ValidationError (msg : string)
| BackendError (msg : string)
| HTTPException (status_code : Z) (detail : string).

(** [str(e)] *)
Definition exn_str (e : exn) : string :=
  match e with
  | IndexError m | ZeroDivisionError m | ValueError m | OverflowError m
  | ValidationError m | BackendError m => m
  | HTTPException _ d => d
  end.

Inductive result (A : Type) : Type :=
| Ok (a : A)
| Raise (e : exn).
Arguments Ok {A} a.
Arguments Raise {A} e.

#[export] Instance result_ret : MRet result := λ A a, Ok a.
#[export] Instance result_bind : MBind result := λ A B k r,
  match r with
  | Ok a => k a
  | Raise e => Raise e
  end.

Definition is_Ok {A} (r : result A) : Prop := ∃ a, r = Ok a.

(** ** Python primitives used by the code *)

(** [a // b] on integers: floor division, as [Z.div]. *)
Definition py_floordiv (a b : Z) : result Z :=
  if b =? 0 then Raise (ZeroDivisionError "integer division or modulo by zero")
  else Ok (a / b).

(** [a % b] on integers: the sign follows the divisor, as [Z.modulo]. *)
Definition py_mod (a b : Z) : result Z :=
  if b =? 0 then Raise (ZeroDivisionError "integer division or modulo by zero")
  else Ok (a mod b).

(** [len(l)] *)
Definition len {A} (l : list A) : Z := Z.of_nat (length l).

(** [l[i]]: a negative index counts from the end; outside
    [-len(l), len(l)) the lookup raises [IndexError]. *)
Definition py_getitem {A} (l : list A) (i : Z) : result A :=
  let j := if i <? 0 then i + len l else i in
  if (j <? 0) || (len l <=? j) then Raise (IndexError "list index out of range")
  else match l !! Z.to_nat j with
       | Some a => Ok a
       | None => Raise (IndexError "list index out of range")
       end.

(** [str(n)] for an integer *)
Definition str_int (n : Z) : string := NilZero.string_of_int (Z.to_int n).

(** [enumerate(l)] *)
Fixpoint enumerate_from {A} (n : Z) (l : list A) : list (Z * A) :=
  match l with
  | [] => []
  | a :: l' => (n, a) :: enumerate_from (n + 1) l'
  end.
Definition enumerate {A} (l : list A) : list (Z * A) := enumerate_from 0 l.

(** ** schemas.py *)

Inductive ExperimentStatus : Type :=
| DRAFT | QUEUED | RUNNING | COMPLETED | FAILED | CANCELLED.

Inductive ParameterType : Type := NUMERIC | CATEGORICAL | ENUM.

Inductive WorkflowTemplate : Type :=
| TXT2IMG | IMG2IMG | HIRES_FIX | LORA_COMPARISON | CUSTOM.

(** [Union[int, float, str]] *)
Inductive value : Type :=
| VInt (n : Z)
| VFloat (f : float)
| VStr (s : string).

Record ParameterDefinition : Type := {
  name : string;
  display_name : string;
  type : ParameterType;
  values : list value;
}.

(** [isinstance(val, type(first))] *)
Definition same_type (first val : value) : bool :=
  match first, val with
  | VInt _, VInt _ | VFloat _, VFloat _ | VStr _, VStr _ => true
  | _, _ => false
  end.

(** [ParameterDefinition.validate_values] *)
Definition validate_values (v : list value) : result (list value) :=
  match v with
  | [] => Raise (ValueError "Values list cannot be empty")
  | first :: _ =>
      if forallb (same_type first) v then Ok v
      else Raise (ValueError "All parameter values must be of the same type")
  end.

(** [ParameterDefinition.count] *)
Definition count (p : ParameterDefinition) : Z := len (values p).

Record ParameterGrid : Type := {
  x_axis : ParameterDefinition;
  y_axis : ParameterDefinition;
  z_axis : ParameterDefinition;
}.

(** A grid that went through the model validation: every axis passed
    [validate_values]. *)
Definition ParameterGrid_valid (g : ParameterGrid) : Prop :=
  is_Ok (validate_values (values (x_axis g))) ∧
  is_Ok (validate_values (values (y_axis g))) ∧
  is_Ok (validate_values (values (z_axis g))).

(** [ParameterGrid.total_combinations] *)
Definition total_combinations (g : ParameterGrid) : Z :=
  count (x_axis g) * count (y_axis g) * count (z_axis g).

(** The dict literal [{x.name: xv, y.name: yv, z.name: zv}]: keys are
    inserted left to right, a repeated key keeps the last value. *)
Definition combination_dict (g : ParameterGrid) (xv yv zv : value)
  : gmap string value :=
  <[name (z_axis g) := zv]>
    (<[name (y_axis g) := yv]> (<[name (x_axis g) := xv]> ∅)).

(** [ParameterGrid.get_combination] *)
Definition get_combination (g : ParameterGrid) (index : Z)
  : result (gmap string value) :=
  let x_count := count (x_axis g) in
  let y_count := count (y_axis g) in
  z_idx ← py_floordiv index (x_count * y_count);
  m ← py_mod index (x_count * y_count);
  y_idx ← py_floordiv m x_count;
  x_idx ← py_mod index x_count;
  xv ← py_getitem (values (x_axis g)) x_idx;
  yv ← py_getitem (values (y_axis g)) y_idx;
  zv ← py_getitem (values (z_axis g)) z_idx;
  Ok (combination_dict g xv yv zv).

(** The three positions computed by [get_combination]. *)
Definition x_pos (nx : Z) (i : Z) : Z := i mod nx.
Definition y_pos (nx ny : Z) (i : Z) : Z := (i mod (nx * ny)) / nx.
Definition z_pos (nx ny : Z) (i : Z) : Z := i / (nx * ny).

(** The fixture of [tests/conftest.py]. *)
Definition sample_parameter_grid : ParameterGrid := {|
  x_axis := {| name := "cfg"; display_name := "CFG Scale"; type := NUMERIC;
               values := [VFloat 4.0; VFloat 6.0; VFloat 8.0; VFloat 10.0] |};
  y_axis := {| name := "steps"; display_name := "Steps"; type := NUMERIC;
               values := [VInt 15; VInt 20; VInt 25; VInt 30] |};
  z_axis := {| name := "sampler_name"; display_name := "Sampler"; type := ENUM;
               values := [VStr "euler"; VStr "dpmpp_2m"; VStr "uni_pc"] |};
|}.

(** *** Workflow configuration and experiment models *)

(** [datetime]: a reading of the wall clock. *)
Definition datetime : Type := Z.

Record WorkflowConfig : Type := {
  template : WorkflowTemplate;
  prompt : string;
  negative_prompt : string;
  checkpoint : string;
  width : Z;
  height : Z;
  batch_size : Z;
  seed : Z;
  vae : option string;
  loras : option (list (gmap string value));
  controlnet : option (gmap string value);
}.

(** [ExperimentCreate]; its [name] and [description] are [create_name]
    and [create_description] here. *)
Record ExperimentCreate : Type := {
  create_name : string;
  create_description : option string;
  parameter_grid : ParameterGrid;
  workflow_config : WorkflowConfig;
  multi_seed : bool;
  num_seeds : Z;
  enable_wandb : bool;
  wandb_tags : list string;
}.

(** [ExperimentResponse]; [id] is the UUID in its text form, and [name],
    [description], [parameter_grid] and [workflow_config] carry the
    prefix [exp_] here. *)
Record ExperimentResponse : Type := {
  id : string;
  exp_name : string;
  exp_description : string;
  status : ExperimentStatus;
  exp_parameter_grid : ParameterGrid;
  exp_workflow_config : WorkflowConfig;
  total_images : Z;
  images_generated : Z;
  progress : float;
  created_at : datetime;
  updated_at : datetime;
  started_at : option datetime;
  completed_at : option datetime;
  error_message : option string;
  wandb_run_id : option string;
  wandb_run_url : option string;
}.

(** The constructor call [ExperimentResponse(id=..., ..., updated_at=...)]
    of [create_experiment].  The model validates its fields:
    [description] is declared [str], so [None] is refused, and [progress]
    is declared within [0.0, 1.0].  The messages are abridged. *)
Definition ExperimentResponse_new (id : string) (name : string)
    (description : option string) (status : ExperimentStatus)
    (parameter_grid : ParameterGrid) (workflow_config : WorkflowConfig)
    (total_images images_generated : Z) (progress : float)
    (created_at updated_at : datetime) : result ExperimentResponse :=
  match description with
  | None =>
      Raise (ValidationError "description: Input should be a valid string")
  | Some d =>
      if (0 <=? progress)%float && (progress <=? 1)%float then
        Ok {| id := id; exp_name := name; exp_description := d;
              status := status; exp_parameter_grid := parameter_grid;
              exp_workflow_config := workflow_config;
              total_images := total_images;
              images_generated := images_generated; progress := progress;
              created_at := created_at; updated_at := updated_at;
              started_at := None; completed_at := None;
              error_message := None; wandb_run_id := None;
              wandb_run_url := None |}
      else
        Raise (ValidationError "progress: Input should be within 0 and 1")
  end.

(** Attribute assignments [experiment.field = v]. *)
Definition set_status (v : ExperimentStatus) (e : ExperimentResponse) :=
  {| id := id e; exp_name := exp_name e; exp_description := exp_description e;
     status := v; exp_parameter_grid := exp_parameter_grid e;
     exp_workflow_config := exp_workflow_config e;
     total_images := total_images e; images_generated := images_generated e;
     progress := progress e; created_at := created_at e;
     updated_at := updated_at e; started_at := started_at e;
     completed_at := completed_at e; error_message := error_message e;
     wandb_run_id := wandb_run_id e; wandb_run_url := wandb_run_url e |}.

Definition set_images_generated (v : Z) (e : ExperimentResponse) :=
  {| id := id e; exp_name := exp_name e; exp_description := exp_description e;
     status := status e; exp_parameter_grid := exp_parameter_grid e;
     exp_workflow_config := exp_workflow_config e;
     total_images := total_images e; images_generated := v;
     progress := progress e; created_at := created_at e;
     updated_at := updated_at e; started_at := started_at e;
     completed_at := completed_at e; error_message := error_message e;
     wandb_run_id := wandb_run_id e; wandb_run_url := wandb_run_url e |}.

Definition set_progress (v : float) (e : ExperimentResponse) :=
  {| id := id e; exp_name := exp_name e; exp_description := exp_description e;
     status := status e; exp_parameter_grid := exp_parameter_grid e;
     exp_workflow_config := exp_workflow_config e;
     total_images := total_images e; images_generated := images_generated e;
     progress := v; created_at := created_at e;
     updated_at := updated_at e; started_at := started_at e;
     completed_at := completed_at e; error_message := error_message e;
     wandb_run_id := wandb_run_id e; wandb_run_url := wandb_run_url e |}.

Definition set_updated_at (v : datetime) (e : ExperimentResponse) :=
  {| id := id e; exp_name := exp_name e; exp_description := exp_description e;
     status := status e; exp_parameter_grid := exp_parameter_grid e;
     exp_workflow_config := exp_workflow_config e;
     total_images := total_images e; images_generated := images_generated e;
     progress := progress e; created_at := created_at e;
     updated_at := v; started_at := started_at e;
     completed_at := completed_at e; error_message := error_message e;
     wandb_run_id := wandb_run_id e; wandb_run_url := wandb_run_url e |}.

Definition set_started_at (v : datetime) (e : ExperimentResponse) :=
  {| id := id e; exp_name := exp_name e; exp_description := exp_description e;
     status := status e; exp_parameter_grid := exp_parameter_grid e;
     exp_workflow_config := exp_workflow_config e;
     total_images := total_images e; images_generated := images_generated e;
     progress := progress e; created_at := created_at e;
     updated_at := updated_at e; started_at := Some v;
     completed_at := completed_at e; error_message := error_message e;
     wandb_run_id := wandb_run_id e; wandb_run_url := wandb_run_url e |}.

Definition set_completed_at (v : datetime) (e : ExperimentResponse) :=
  {| id := id e; exp_name := exp_name e; exp_description := exp_description e;
     status := status e; exp_parameter_grid := exp_parameter_grid e;
     exp_workflow_config := exp_workflow_config e;
     total_images := total_images e; images_generated := images_generated e;
     progress := progress e; created_at := created_at e;
     updated_at := updated_at e; started_at := started_at e;
     completed_at := Some v; error_message := error_message e;
     wandb_run_id := wandb_run_id e; wandb_run_url := wandb_run_url e |}.

Definition set_error_message (v : string) (e : ExperimentResponse) :=
  {| id := id e; exp_name := exp_name e; exp_description := exp_description e;
     status := status e; exp_parameter_grid := exp_parameter_grid e;
     exp_workflow_config := exp_workflow_config e;
     total_images := total_images e; images_generated := images_generated e;
     progress := progress e; created_at := created_at e;
     updated_at := updated_at e; started_at := started_at e;
     completed_at := completed_at e; error_message := Some v;
     wandb_run_id := wandb_run_id e; wandb_run_url := wandb_run_url e |}.

(** ** config.py *)

Record Settings : Type := {
  output_dir : string;
  max_images_per_experiment : Z;
}.

(** The defaults of [Settings]. *)
Definition default_settings : Settings :=
  {| output_dir := "./data/outputs"; max_images_per_experiment := 500 |}.

(** ** The Python runtime *)

(** The built-in conversions the code applies to axis values.  [py_int]
    and [py_float] are [int(v)] and [float(v)], which raise for text that
    spells no number; [repr_float] and [repr_str] are [repr] on floats and
    on strings.  They belong to the interpreter, not to the repository,
    and are taken as parameters. *)
Record PyRuntime : Type := {
  py_int : value → result Z;
  py_float : value → result float;
  repr_float : float → string;
  repr_str : string → string;
}.

(** [float(n)] for an integer: the nearest binary64 number. *)
Definition float_of_Z (n : Z) : float :=
  SF2Prim (binary_normalize 53 1024 n 0 false).

(** [a / b] on integers.  The quotient of the converted operands is the
    correctly rounded quotient as long as both are below 2^53, which
    holds for the image counts divided here. *)
Definition py_truediv (a b : Z) : result float :=
  if b =? 0 then Raise (ZeroDivisionError "division by zero")
  else Ok (float_of_Z a / float_of_Z b)%float.

(** [str(v)], also what an f-string field prints. *)
Definition py_str (rt : PyRuntime) (v : value) : string :=
  match v with
  | VInt n => str_int n
  | VFloat f => repr_float rt f
  | VStr s => s
  end.

(** [repr(v)], what [str] of a list prints for each element. *)
Definition py_repr (rt : PyRuntime) (v : value) : string :=
  match v with
  | VInt n => str_int n
  | VFloat f => repr_float rt f
  | VStr s => repr_str rt s
  end.

(** [sep.join(l)] *)
Fixpoint join (sep : string) (l : list string) : string :=
  match l with
  | [] => ""
  | [s] => s
  | s :: l' => s +:+ sep +:+ join sep l'
  end.

(** ** Loops with an early [return] *)

Inductive ctl (St R : Type) : Type :=
| Next (st : St)
| Return (st : St) (r : R).
Arguments Next {St R} st.
Arguments Return {St R} st r.

Definition ctl_state {St R} (c : ctl St R) : St :=
  match c with Next st | Return st _ => st end.

(** [for a in l: body] where the body may [return]. *)
Fixpoint for_each {A St R} (l : list A) (body : A → St → ctl St R) (st : St)
  : ctl St R :=
  match l with
  | [] => Next st
  | a :: l' =>
      match body a st with
      | Next st' => for_each l' body st'
      | Return st' r => Return st' r
      end
  end.

(** ** services/experiment_service.py *)

(** One entry of [results]. *)
Record GeneratedResult : Type := {
  parameters : gmap string value;
  image_path : string;
  result_seed : Z;
  generation_time : float;
  index : Z;
}.

(** What one combination sends to the backend: the latent size of
    [EmptyLatentImage], the two prompts of [CLIPTextEncode], the keyword
    arguments of [KSampler] and the file name of [SaveImage]. *)
Record Request : Type := {
  latent_width : Z;
  latent_height : Z;
  latent_batch : Z;
  positive : string;
  negative : string;
  sampler_kwargs : gmap string value;
  save_filename : string;
}.

(** The external backend as the executor sees it.  [open_session] stands
    for creating the output directory, importing the runtime, entering
    [Workflow()] and loading the checkpoint; [generate k req] for the node
    calls of the combination with ordinal [k], returning the measured
    generation time or raising; [randint] is the value drawn by
    [random.randint(0, 2**32-1)].  Leaving the [with] block is taken not
    to raise. *)
Record Backend : Type := {
  open_session : string → string → result unit;
  generate : Z → Request → result float;
  randint : Z;
}.

(** A log entry, kept for the statements only: one per combination the
    loop started to work on. *)
Record Attempt : Type := {
  attempt_index : Z;
  attempt_seed : Z;
  attempt_filename : string;
  attempt_params : gmap string value;
  attempt_request : result Request;
}.

(** The variables of the run loop; [running] is
    [self._running_experiments], [shared] whatever the callbacks mutate. *)
Record LoopState (S : Type) : Type := {
  running : gmap string bool;
  shared : S;
  results : list GeneratedResult;
  current_index : Z;
  attempts : list Attempt;
}.
Arguments running {S} _.
Arguments shared {S} _.
Arguments results {S} _.
Arguments current_index {S} _.
Arguments attempts {S} _.

(** What a call of [execute_experiment] leaves behind. *)
Record RunOutcome (S : Type) : Type := {
  returned : result (list GeneratedResult);
  running_after : gmap string bool;
  shared_after : S;
  attempted : list Attempt;
}.
Arguments returned {S} _.
Arguments running_after {S} _.
Arguments shared_after {S} _.
Arguments attempted {S} _.

Module ExperimentExecutor.

(** [ExperimentExecutor._build_sampler_kwargs] *)
Definition _build_sampler_kwargs (rt : PyRuntime)
    (params : gmap string value) (seed : Z) : result (gmap string value) :=
  let kwargs : gmap string value :=
    <["denoise" := VFloat 1.0]> (<["scheduler" := VStr "normal"]>
    (<["sampler_name" := VStr "euler"]> (<["cfg" := VFloat 8.0]>
    (<["steps" := VInt 20]> (<["seed" := VInt seed]> ∅))))) in
  kwargs ← match params !! "steps" with
           | Some v => n ← py_int rt v; Ok (<["steps" := VInt n]> kwargs)
           | None => Ok kwargs
           end;
  kwargs ← match params !! "cfg" with
           | Some v => f ← py_float rt v; Ok (<["cfg" := VFloat f]> kwargs)
           | None => Ok kwargs
           end;
  let kwargs :=
    match params !! "sampler_name", params !! "sampler" with
    | Some v, _ => <["sampler_name" := v]> kwargs
    | None, Some v => <["sampler_name" := v]> kwargs
    | None, None => kwargs
    end in
  let kwargs :=
    match params !! "scheduler" with
    | Some v => <["scheduler" := v]> kwargs
    | None => kwargs
    end in
  match params !! "denoise" with
  | Some v => f ← py_float rt v; Ok (<["denoise" := VFloat f]> kwargs)
  | None => Ok kwargs
  end.

(** [ExperimentExecutor.cancel_experiment]: the returned flag and the
    registry afterwards. *)
Definition cancel_experiment (experiment_id : string)
    (_running_experiments : gmap string bool) : bool * gmap string bool :=
  match _running_experiments !! experiment_id with
  | Some _ => (true, <[experiment_id := false]> _running_experiments)
  | None => (false, _running_experiments)
  end.

(** [ExperimentExecutor.is_running] *)
Definition is_running (experiment_id : string)
    (_running_experiments : gmap string bool) : bool :=
  default false (_running_experiments !! experiment_id).

Section execute.
Context {S : Type}.
Variable settings : Settings.
Variable rt : PyRuntime.
Variable env : Backend.
(** What other tasks do to the registry and to the shared state while
    the combination with the given ordinal is in flight. *)
Variable interfere : Z → gmap string bool → S → gmap string bool * S.
Variable exp_id_str : string.
Variable parameter_grid : ParameterGrid.
Variable workflow_config : WorkflowConfig.
Variable progress_callback :
  option (Z → Z → GeneratedResult → S → S * result unit).
Variable error_callback : option (string → S → S).

(** [if error_callback: error_callback(msg)] *)
Definition call_error_callback (msg : string) (sh : S) : S :=
  match error_callback with
  | Some cb => cb msg sh
  | None => sh
  end.

(** [seed_base] *)
Definition seed_base : Z :=
  if 0 <=? seed workflow_config then seed workflow_config else randint env.

(** The file name [f"{x_idx}_{y_idx}_{z_idx}"]. *)
Definition filename (x_idx y_idx z_idx : Z) : string :=
  str_int x_idx +:+ "_" +:+ str_int y_idx +:+ "_" +:+ str_int z_idx.

(** The body of the innermost loop. *)
Definition loop_body (z : Z * value) (y : Z * value) (x : Z * value)
    (st : LoopState S) : ctl (LoopState S) (list GeneratedResult) :=
  let '(z_idx, z_value) := z in
  let '(y_idx, y_value) := y in
  let '(x_idx, x_value) := x in
  if negb (default false (running st !! exp_id_str)) then
    Return st (results st)
  else
    let params := combination_dict parameter_grid x_value y_value z_value in
    let seed := seed_base + current_index st in
    let filename := filename x_idx y_idx z_idx in
    let request :=
      sampler_kwargs ← _build_sampler_kwargs rt params seed;
      Ok {| latent_width := width workflow_config;
            latent_height := height workflow_config;
            latent_batch := 1;
            positive := prompt workflow_config;
            negative := negative_prompt workflow_config;
            sampler_kwargs := sampler_kwargs;
            save_filename := filename |} in
    let attempt := {| attempt_index := current_index st;
                      attempt_seed := seed;
                      attempt_filename := filename;
                      attempt_params := params;
                      attempt_request := request |} in
    let '(running1, shared1) :=
      interfere (current_index st) (running st) (shared st) in
    let finish (sh : S) (rs : list GeneratedResult) :=
      Next {| running := running1; shared := sh; results := rs;
              current_index := current_index st + 1;
              attempts := attempts st ++ [attempt] |} in
    let failed (e : exn) (sh : S) :=
      call_error_callback
        ("Image " +:+ str_int (current_index st) +:+ " failed: "
           +:+ exn_str e) sh in
    let outcome := req ← request; generate env (current_index st) req in
    match outcome with
    | Ok generation_time =>
        let result := {| parameters := params;
                         image_path := filename +:+ ".png";
                         result_seed := seed;
                         generation_time := generation_time;
                         index := current_index st |} in
        let results1 := results st ++ [result] in
        match progress_callback with
        | Some cb =>
            let '(shared2, r) :=
              cb (current_index st + 1) (total_combinations parameter_grid)
                 result shared1 in
            match r with
            | Ok _ => finish shared2 results1
            | Raise e => finish (failed e shared2) results1
            end
        | None => finish shared1 results1
        end
    | Raise e => finish (failed e shared1) (results st)
    end.

(** The triple loop over [enumerate] of the Z, Y and X values. *)
Definition xyz_loop (st : LoopState S)
  : ctl (LoopState S) (list GeneratedResult) :=
  for_each (enumerate (values (z_axis parameter_grid))) (λ z,
    for_each (enumerate (values (y_axis parameter_grid))) (λ y,
      for_each (enumerate (values (x_axis parameter_grid))) (λ x,
        loop_body z y x))) st.

(** [ExperimentExecutor.execute_experiment]: registers the id, opens the
    session, runs the loop, and pops the id in [finally]. *)
Definition execute_experiment
    (_running_experiments : gmap string bool) (sh : S) : RunOutcome S :=
  let registry := <[exp_id_str := true]> _running_experiments in
  match open_session env (output_dir settings +:+ "/" +:+ exp_id_str)
          (checkpoint workflow_config) with
  | Raise e =>
      {| returned := Raise e;
         running_after := delete exp_id_str registry;
         shared_after := call_error_callback (exn_str e) sh;
         attempted := [] |}
  | Ok _ =>
      let c := xyz_loop {| running := registry; shared := sh; results := [];
                           current_index := 0; attempts := [] |} in
      let st := ctl_state c in
      {| returned := Ok (match c with
                         | Next st => results st
                         | Return _ r => r
                         end);
         running_after := delete exp_id_str (running st);
         shared_after := shared st;
         attempted := attempts st |}
  end.

End execute.
End ExperimentExecutor.

(** ** services/workflow_generator.py *)

(** A double quote and a line feed. *)
Definition dq : string := String "034"%char "".
Definition nl : string := String "010"%char "".

(** The text made of the lines given, each ended by a line feed. *)
Fixpoint unlines (lines : list string) : string :=
  match lines with
  | [] => ""
  | l :: lines' => l +:+ nl +:+ unlines lines'
  end.

Module WorkflowGenerator.

(** [isinstance(v, str)] *)
Definition is_str (v : value) : bool :=
  match v with VStr _ => true | _ => false end.

(** [WorkflowGenerator._format_values] *)
Definition _format_values (rt : PyRuntime) (values : list value) : string :=
  if forallb is_str values then
    "[" +:+ join ", " ((λ v, "'" +:+ py_str rt v +:+ "'") <$> values) +:+ "]"
  else
    "[" +:+ join ", " (py_repr rt <$> values) +:+ "]".

(** The dict [param_mapping] of [_generate_ksampler_call]. *)
Definition param_mapping : gmap string string :=
  <["denoise" := "denoise"]> (<["scheduler" := "scheduler"]>
  (<["sampler" := "sampler_name"]> (<["sampler_name" := "sampler_name"]>
  (<["steps" := "steps"]> (<["cfg" := "cfg"]> ∅))))).

(** [any(p in param_mapping and param_mapping[p] == target for p in ...)] *)
Definition maps_to (target : string) (params : list string) : bool :=
  existsb (λ p, bool_decide (param_mapping !! p = Some target)) params.

(** [WorkflowGenerator._generate_ksampler_call] *)
Definition _generate_ksampler_call (x_param y_param z_param : string)
  : string :=
  let params := [x_param; y_param; z_param] in
  let args :=
    ["model"; "SEED if SEED >= 0 else random.randint(0, 2**32-1)"]
    ++ [if maps_to "steps" params then "steps=steps" else "steps=20"]
    ++ [if maps_to "cfg" params then "cfg=cfg" else "cfg=8.0"]
    ++ [if maps_to "sampler_name" params then "sampler_name=sampler_name"
        else "sampler_name='euler'"]
    ++ [if maps_to "scheduler" params then "scheduler=scheduler"
        else "scheduler='normal'"]
    ++ ["positive=positive"; "negative=negative"; "latent_image=latent";
        "denoise=1.0"] in
  "latent = KSampler(" +:+ join ", " args +:+ ")".

(** The lines of the script of [_generate_txt2img_script], in the order
    of the template. *)
Definition txt2img_lines (rt : PyRuntime) (parameter_grid : ParameterGrid)
    (workflow_config : WorkflowConfig) : list string :=
  let x_param := name (x_axis parameter_grid) in
  let y_param := name (y_axis parameter_grid) in
  let z_param := name (z_axis parameter_grid) in
  let x_values := _format_values rt (values (x_axis parameter_grid)) in
  let y_values := _format_values rt (values (y_axis parameter_grid)) in
  let z_values := _format_values rt (values (z_axis parameter_grid)) in
  [ dq +:+ dq +:+ dq;
    "Auto-generated ComfyScript for XYZ Plot";
    "X-axis: " +:+ display_name (x_axis parameter_grid) +:+ " ("
      +:+ str_int (len (values (x_axis parameter_grid))) +:+ " values)";
    "Y-axis: " +:+ display_name (y_axis parameter_grid) +:+ " ("
      +:+ str_int (len (values (y_axis parameter_grid))) +:+ " values)";
    "Z-axis: " +:+ display_name (z_axis parameter_grid) +:+ " ("
      +:+ str_int (len (values (z_axis parameter_grid))) +:+ " values)";
    "Total combinations: "
      +:+ str_int (total_combinations parameter_grid);
    dq +:+ dq +:+ dq;
    "";
    "from comfy_script.runtime import *";
    "load()";
    "from comfy_script.runtime.nodes import *";
    "";
    "# Parameter definitions";
    x_param +:+ "_values = " +:+ x_values;
    y_param +:+ "_values = " +:+ y_values;
    z_param +:+ "_values = " +:+ z_values;
    "";
    "# Base configuration";
    "PROMPT = " +:+ dq +:+ dq +:+ dq +:+ prompt workflow_config
      +:+ dq +:+ dq +:+ dq;
    "NEGATIVE_PROMPT = " +:+ dq +:+ dq +:+ dq
      +:+ negative_prompt workflow_config +:+ dq +:+ dq +:+ dq;
    "CHECKPOINT = " +:+ dq +:+ checkpoint workflow_config +:+ dq;
    "WIDTH = " +:+ str_int (width workflow_config);
    "HEIGHT = " +:+ str_int (height workflow_config);
    "SEED = " +:+ str_int (seed workflow_config);
    "BATCH_SIZE = " +:+ str_int (batch_size workflow_config);
    "";
    "# Results storage";
    "results = []";
    "";
    "with Workflow():";
    "    # Load base models";
    "    model, clip, vae = CheckpointLoaderSimple(CHECKPOINT)";
    "";
    "    # XYZ loop";
    "    for z_idx, " +:+ z_param +:+ " in enumerate(" +:+ z_param
      +:+ "_values):";
    "        for y_idx, " +:+ y_param +:+ " in enumerate(" +:+ y_param
      +:+ "_values):";
    "            for x_idx, " +:+ x_param +:+ " in enumerate(" +:+ x_param
      +:+ "_values):";
    "";
    "                # Generate unique filename";
    "                filename = f" +:+ dq +:+ "{x_idx}_{y_idx}_{z_idx}_{"
      +:+ x_param +:+ "}_{" +:+ y_param +:+ "}_{" +:+ z_param +:+ "}" +:+ dq;
    "";
    "                # Create latent image";
    "                latent = EmptyLatentImage(WIDTH, HEIGHT, BATCH_SIZE)";
    "";
    "                # Encode prompts";
    "                positive = CLIPTextEncode(PROMPT, clip)";
    "                negative = CLIPTextEncode(NEGATIVE_PROMPT, clip)";
    "";
    "                # Sample (using parameter sweep values)";
    "                " +:+ _generate_ksampler_call x_param y_param z_param;
    "";
    "                # Decode and save";
    "                image = VAEDecode(latent, vae)";
    "                result = SaveImage(image, filename)";
    "";
    "                results.append({";
    "                    'x': " +:+ x_param +:+ ",";
    "                    'y': " +:+ y_param +:+ ",";
    "                    'z': " +:+ z_param +:+ ",";
    "                    'filename': filename,";
    "                })";
    "";
    "print(f" +:+ dq +:+ "Generated {len(results)} images" +:+ dq +:+ ")" ].

(** [WorkflowGenerator._generate_txt2img_script] *)
Definition _generate_txt2img_script (rt : PyRuntime)
    (parameter_grid : ParameterGrid) (workflow_config : WorkflowConfig)
  : string :=
  unlines (txt2img_lines rt parameter_grid workflow_config).

(** [WorkflowGenerator.generate_script] *)
Definition generate_script (rt : PyRuntime) (parameter_grid : ParameterGrid)
    (workflow_config : WorkflowConfig) : result string :=
  match template workflow_config with
  | TXT2IMG => Ok (_generate_txt2img_script rt parameter_grid workflow_config)
  | IMG2IMG => Ok "# img2img workflow - TODO: implement"
  | HIRES_FIX => Ok "# hires fix workflow - TODO: implement"
  | LORA_COMPARISON =>
      Raise (ValueError "Unsupported template: WorkflowTemplate.LORA_COMPARISON")
  | CUSTOM => Raise (ValueError "Unsupported template: WorkflowTemplate.CUSTOM")
  end.

End WorkflowGenerator.

(** ** api/routes.py *)

#[export] Instance ExperimentStatus_eq_dec : EqDecision ExperimentStatus.
Proof. solve_decision. Defined.

(** The two module-level singletons the routes work on: the in-memory
    store [_experiments] and the registry of the executor instance. *)
Record World : Type := {
  _experiments : gmap string ExperimentResponse;
  _running_experiments : gmap string bool;
}.

(** The environment of one background run: the backend, the cancel
    requests that arrive for this experiment while a combination is in
    flight (with the clock reading of the route), and the readings of
    [datetime.now()] taken by the task and by its callbacks. *)
Record RunEnv : Type := {
  backend : Backend;
  cancel_requested : Z → option datetime;
  now_started_at : datetime;
  now_running : datetime;
  now_progress : Z → datetime;
  now_error : string → datetime;
  now_completed_at : datetime;
  now_finished : datetime;
}.

Module routes.

(** [create_experiment]: [new_id] is the value of [uuid4()], the two
    times are the readings of [datetime.now()]. *)
Definition create_experiment (settings : Settings)
    (experiment : ExperimentCreate) (new_id : string)
    (t_created t_updated : datetime)
    (_experiments : gmap string ExperimentResponse)
  : result ExperimentResponse * gmap string ExperimentResponse :=
  let total_images := total_combinations (parameter_grid experiment) in
  let total_images :=
    if multi_seed experiment then total_images * num_seeds experiment
    else total_images in
  if max_images_per_experiment settings <? total_images then
    (Raise (HTTPException 400
       ("Total images (" +:+ str_int total_images +:+ ") exceeds maximum ("
          +:+ str_int (max_images_per_experiment settings) +:+ ")")),
     _experiments)
  else
    match ExperimentResponse_new new_id (create_name experiment)
            (create_description experiment) DRAFT
            (parameter_grid experiment) (workflow_config experiment)
            total_images 0 0.0 t_created t_updated with
    | Ok exp_response =>
        (Ok exp_response, <[id exp_response := exp_response]> _experiments)
    | Raise e =>
        (Raise (HTTPException 500
           ("Failed to create experiment: " +:+ exn_str e)),
         _experiments)
    end.


(** [execute_experiment]: the response, the world afterwards, and the
    background tasks created (the id of the experiment to run). *)
Definition execute_experiment (experiment_id : string) (now : datetime)
    (w : World) : result string * World * list string :=
  match _experiments w !! experiment_id with
  | None => (Raise (HTTPException 404 "Experiment not found"), w, [])
  | Some experiment =>
      if decide (status experiment = RUNNING) then
        (Raise (HTTPException 400 "Experiment is already running"), w, [])
      else
        let experiment := set_updated_at now (set_status QUEUED experiment) in
        (Ok "Experiment queued for execution",
         {| _experiments := <[experiment_id := experiment]> (_experiments w);
            _running_experiments := _running_experiments w |},
         [experiment_id])
  end.

(** [cancel_experiment] *)
Definition cancel_experiment (experiment_id : string) (now : datetime)
    (w : World) : result string * World :=
  match _experiments w !! experiment_id with
  | None => (Raise (HTTPException 404 "Experiment not found"), w)
  | Some experiment =>
      if decide (status experiment ≠ RUNNING) then
        (Raise (HTTPException 400 "Experiment is not running"), w)
      else
        let '(cancelled, registry) :=
          ExperimentExecutor.cancel_experiment experiment_id
            (_running_experiments w) in
        if cancelled then
          let experiment :=
            set_updated_at now (set_status CANCELLED experiment) in
          (Ok "Experiment cancelled",
           {| _experiments :=
                <[experiment_id := experiment]> (_experiments w);
              _running_experiments := registry |})
        else
          (Raise (HTTPException 500 "Failed to cancel experiment"),
           {| _experiments := _experiments w;
              _running_experiments := registry |})
  end.

(** The closure [progress_callback] of the background task: the record
    it assigns to is the stored one. *)
Definition progress_callback (env : RunEnv) (experiment_id : string)
    (current total : Z) (_result : GeneratedResult)
    (_experiments : gmap string ExperimentResponse)
  : gmap string ExperimentResponse * result unit :=
  let store := alter (set_images_generated current) experiment_id
                 _experiments in
  match py_truediv current total with
  | Raise e => (store, Raise e)
  | Ok p =>
      (alter (λ e, set_updated_at (now_progress env current)
                     (set_progress p e)) experiment_id store,
       Ok ())
  end.

(** The closure [error_callback]. *)
Definition error_callback (env : RunEnv) (experiment_id : string)
    (error_msg : string) (_experiments : gmap string ExperimentResponse)
  : gmap string ExperimentResponse :=
  alter (λ e, set_updated_at (now_error env error_msg)
                (set_error_message error_msg e)) experiment_id _experiments.

(** A cancel request served while the run waits on the backend. *)
Definition concurrent_requests (env : RunEnv) (experiment_id : string)
    (k : Z) (registry : gmap string bool)
    (store : gmap string ExperimentResponse)
  : gmap string bool * gmap string ExperimentResponse :=
  match cancel_requested env k with
  | None => (registry, store)
  | Some now =>
      let w := snd (cancel_experiment experiment_id now
                      {| _experiments := store;
                         _running_experiments := registry |}) in
      (_running_experiments w, _experiments w)
  end.

(** [_execute_experiment_background]: the world afterwards, and what the
    executor did. *)
Definition _execute_experiment_background (settings : Settings)
    (rt : PyRuntime) (env : RunEnv) (experiment_id : string) (w : World)
  : World * option (RunOutcome (gmap string ExperimentResponse)) :=
  match _experiments w !! experiment_id with
  | None => (w, None)
  | Some experiment =>
      let store :=
        alter (λ e, set_updated_at (now_running env)
                      (set_started_at (now_started_at env)
                         (set_status RUNNING e)))
          experiment_id (_experiments w) in
      let run :=
        ExperimentExecutor.execute_experiment settings rt (backend env)
          (concurrent_requests env experiment_id)
          experiment_id (exp_parameter_grid experiment)
          (exp_workflow_config experiment)
          (Some (progress_callback env experiment_id))
          (Some (error_callback env experiment_id))
          (_running_experiments w) store in
      let store :=
        match returned run with
        | Ok results =>
            alter (λ e, set_updated_at (now_finished env)
                          (set_completed_at (now_completed_at env)
                             (set_status COMPLETED e)))
              experiment_id (shared_after run)
        | Raise e =>
            alter (λ e', set_updated_at (now_finished env)
                           (set_error_message (exn_str e)
                              (set_status FAILED e')))
              experiment_id (shared_after run)
        end in
      ({| _experiments := store;
          _running_experiments := running_after run |}, Some run)
  end.

End routes.

(** ** Fixtures and example environments *)

(** [tests/conftest.py] *)
Definition sample_workflow_config : WorkflowConfig := {|
  template := TXT2IMG;
  prompt := "A beautiful landscape, highly detailed";
  negative_prompt := "low quality, blurry";
  checkpoint := "v1-5-pruned-emaonly.safetensors";
  width := 512; height := 512; batch_size := 1; seed := 42;
  vae := None; loras := None; controlnet := None;
|}.

Definition sample_experiment_create : ExperimentCreate := {|
  create_name := "Test XYZ Plot";
  create_description := Some "Testing CFG vs Steps vs Sampler";
  parameter_grid := sample_parameter_grid;
  workflow_config := sample_workflow_config;
  multi_seed := false; num_seeds := 1;
  enable_wandb := false; wandb_tags := [];
|}.

(** The same request with [description] sent as [null], which
    [Optional[str]] admits. *)
Definition null_description_create : ExperimentCreate := {|
  create_name := "Test XYZ Plot";
  create_description := None;
  parameter_grid := sample_parameter_grid;
  workflow_config := sample_workflow_config;
  multi_seed := false; num_seeds := 1;
  enable_wandb := false; wandb_tags := [];
|}.

(** The request of [test_multi_seed_experiment]. *)
Definition multi_seed_create : ExperimentCreate := {|
  create_name := "Multi-seed Test";
  create_description := Some "Testing with multiple seeds";
  parameter_grid := sample_parameter_grid;
  workflow_config := sample_workflow_config;
  multi_seed := true; num_seeds := 5;
  enable_wandb := false; wandb_tags := [];
|}.

(** *** A Python runtime for the examples *)

(** [int(f)] for a float: truncation toward zero. *)
Definition trunc_float (f : float) : result Z :=
  match Prim2SF f with
  | S754_zero _ => Ok 0
  | S754_infinity _ =>
      Raise (OverflowError "cannot convert float infinity to integer")
  | S754_nan => Raise (ValueError "cannot convert float NaN to integer")
  | S754_finite s m e =>
      let a := if 0 <=? e then Z.pos m * 2 ^ e else Z.pos m / 2 ^ (- e) in
      Ok (if s then - a else a)
  end.

(** [a / b] rounded to the nearest integer, ties to the even one, for
    [0 ≤ a] and [0 < b]. *)
Definition round_div (a b : Z) : Z :=
  let q := a / b in
  let r := a mod b in
  if 2 * r <? b then q
  else if b <? 2 * r then q + 1
  else if Z.even q then q else q + 1.

(** The float nearest to [d * 10^q], for [0 < d]. *)
Definition float_of_decimal (d q : Z) : float :=
  if 0 <=? q then float_of_Z (d * 10 ^ q)
  else SF2Prim (SFdiv 53 1024 (S754_finite false (Z.to_pos d) 0)
                  (S754_finite false (Z.to_pos (10 ^ (- q))) 0)).

(** The least [j] from the one given with [den ≤ num * 10^j]. *)
Fixpoint scale_up (fuel : nat) (num den j : Z) : Z :=
  match fuel with
  | O => j
  | S fuel' => if den <=? num * 10 ^ j then j
               else scale_up fuel' num den (j + 1)
  end.

(** The decimal exponent of [num / den]: the floor of its logarithm. *)
Definition decimal_exponent (num den : Z) : Z :=
  if den <=? num
  then Z.of_nat (String.length (str_int (num / den))) - 1
  else - scale_up 400 num den 1.

(** The shortest decimal [d * 10^q] that reads back as [f], the value of
    [num / den]: one digit, then two, up to seventeen. *)
Fixpoint shortest_digits (fuel : nat) (f : float) (num den p n : Z)
  : Z * Z :=
  let q := p - n + 1 in
  let d := if 0 <=? q then round_div num (den * 10 ^ q)
           else round_div (num * 10 ^ (- q)) den in
  match fuel with
  | O => (d, q)
  | S fuel' =>
      if PrimFloat.eqb (float_of_decimal d q) f then (d, q)
      else shortest_digits fuel' f num den p (n + 1)
  end.

(** Zeros dropped from the front of the reversed digits, but for one
    digit. *)
Fixpoint strip_zeros (rev_digits : list ascii) : list ascii :=
  match rev_digits with
  | "0"%char :: s' =>
      match s' with [] => rev_digits | _ => strip_zeros s' end
  | _ => rev_digits
  end.

Definition zeros (n : Z) : string :=
  String.string_of_list_ascii (replicate (Z.to_nat n) "0"%char).

(** [repr] of a positive finite float: its shortest digits, in fixed
    notation when the decimal point lies at most 16 digits to the right
    and 4 zeros to the left of the first digit, with an exponent
    otherwise. *)
Definition repr_finite (f : float) (num den : Z) : string :=
  let p := decimal_exponent num den in
  let '(d, q) := shortest_digits 16 f num den p 1 in
  let all := String.list_ascii_of_string (str_int d) in
  let decpt := Z.of_nat (length all) + q in
  let digits := reverse (strip_zeros (reverse all)) in
  let n := Z.of_nat (length digits) in
  if (-4 <? decpt) && (decpt <=? 16) then
    if decpt <=? 0 then
      "0." +:+ zeros (- decpt) +:+ String.string_of_list_ascii digits
    else if n <=? decpt then
      String.string_of_list_ascii digits +:+ zeros (decpt - n) +:+ ".0"
    else
      String.string_of_list_ascii (take (Z.to_nat decpt) digits) +:+ "."
        +:+ String.string_of_list_ascii (drop (Z.to_nat decpt) digits)
  else
    let e := decpt - 1 in
    String.string_of_list_ascii (take 1 digits)
      +:+ (if 1 <? n
           then "." +:+ String.string_of_list_ascii (drop 1 digits)
           else "")
      +:+ "e" +:+ (if e <? 0 then "-" else "+")
      +:+ (if Z.abs e <? 10 then "0" else "") +:+ str_int (Z.abs e).

(** [repr(f)] for a float. *)
Definition float_repr (f : float) : string :=
  match Prim2SF f with
  | S754_zero s => if s then "-0.0" else "0.0"
  | S754_infinity s => if s then "-inf" else "inf"
  | S754_nan => "nan"
  | S754_finite s m e =>
      (if s then "-" else "")
      +:+ repr_finite (PrimFloat.abs f)
            (if 0 <=? e then Z.pos m * 2 ^ e else Z.pos m)
            (if 0 <=? e then 1 else 2 ^ (- e))
  end.

(** The two hexadecimal digits of a character code. *)
Definition hex2 (c : ascii) : string :=
  let n := nat_of_ascii c in
  let digit (k : nat) : string :=
    String (ascii_of_nat (if (k <? 10)%nat then 48 + k else 87 + k)) "" in
  digit (n / 16)%nat +:+ digit (n mod 16)%nat.

(** [repr(s)] for a string of printable characters and ASCII controls:
    single quotes unless the text holds a single quote and no double
    quote; the quote in use, the backslash and the controls are escaped. *)
Definition str_repr (s : string) : string :=
  let chars := String.list_ascii_of_string s in
  let has (c : ascii) := existsb (Ascii.eqb c) chars in
  let quote : ascii :=
    if has "'"%char && negb (has "034"%char) then "034"%char else "'"%char in
  let escape (c : ascii) : string :=
    if Ascii.eqb c "\"%char then "\\"
    else if Ascii.eqb c quote then String "\"%char (String c "")
    else if Ascii.eqb c "009"%char then "\t"
    else if Ascii.eqb c "010"%char then "\n"
    else if Ascii.eqb c "013"%char then "\r"
    else if (nat_of_ascii c <? 32)%nat || (nat_of_ascii c =? 127)%nat
         then "\x" +:+ hex2 c
    else String c "" in
  String quote "" +:+ join "" (escape <$> chars) +:+ String quote "".

(** Blanks as [str.strip] removes them. *)
Definition is_space (c : ascii) : bool :=
  let n := nat_of_ascii c in
  (n =? 32)%nat || ((9 <=? n)%nat && (n <=? 13)%nat).

Fixpoint lstrip (l : list ascii) : list ascii :=
  match l with
  | c :: l' => if is_space c then lstrip l' else l
  | [] => []
  end.

Definition strip (l : list ascii) : list ascii :=
  reverse (lstrip (reverse (lstrip l))).

Definition digit_of (c : ascii) : option Z :=
  let n := Z.of_nat (nat_of_ascii c) - 48 in
  if (0 <=? n) && (n <=? 9) then Some n else None.

(** Decimal digits with single underscores between them: their value
    and their number. *)
Fixpoint digits_value (l : list ascii) (acc count : Z) (after_digit : bool)
  : option (Z * Z) :=
  match l with
  | [] => if after_digit then Some (acc, count) else None
  | c :: l' =>
      match digit_of c with
      | Some d => digits_value l' (10 * acc + d) (count + 1) true
      | None =>
          if Ascii.eqb c "_"%char && after_digit
          then digits_value l' acc count false
          else None
      end
  end.

(** An optional sign: whether it is a minus, and the rest. *)
Definition split_sign (l : list ascii) : bool * list ascii :=
  match l with
  | "-"%char :: l' => (true, l')
  | "+"%char :: l' => (false, l')
  | _ => (false, l)
  end.

(** [int(s)] for a string, in base 10. *)
Definition int_of_str (s : string) : result Z :=
  let '(minus, body) := split_sign (strip (String.list_ascii_of_string s)) in
  match digits_value body 0 0 false with
  | Some (n, _) => Ok (if minus then - n else n)
  | None =>
      Raise (ValueError ("invalid literal for int() with base 10: "
                           +:+ str_repr s))
  end.

(** The text before and after the first character satisfying [p]. *)
Fixpoint split_at (p : ascii → bool) (l : list ascii)
  : list ascii * option (list ascii) :=
  match l with
  | [] => ([], None)
  | c :: l' =>
      if p c then ([], Some l')
      else let '(a, b) := split_at p l' in (c :: a, b)
  end.

Definition lower (c : ascii) : ascii :=
  let n := nat_of_ascii c in
  if (65 <=? n)%nat && (n <=? 90)%nat then ascii_of_nat (n + 32) else c.

(** The digits of a decimal mantissa [123.45], [123.], [.45] or [123] as
    an integer and the number of digits after the point. *)
Definition mantissa_value (l : list ascii) : option (Z * Z) :=
  match split_at (Ascii.eqb "."%char) l with
  | (whole, None) => (λ v, (v.1, 0)) <$> digits_value whole 0 0 false
  | (whole, Some frac) =>
      match whole, frac with
      | [], [] => None
      | _, [] => (λ v, (v.1, 0)) <$> digits_value whole 0 0 false
      | [], _ => digits_value frac 0 0 false
      | _, _ =>
          w ← digits_value whole 0 0 false;
          f ← digits_value frac 0 0 false;
          Some (w.1 * 10 ^ f.2 + f.1, f.2)
      end
  end.

(** [float(s)] for a string. *)
Definition float_of_str (s : string) : result float :=
  let failure :=
    Raise (ValueError ("could not convert string to float: "
                         +:+ str_repr s)) in
  let '(minus, body) := split_sign (strip (String.list_ascii_of_string s)) in
  let signed (f : float) : float := if minus then (- f)%float else f in
  let word := String.string_of_list_ascii (lower <$> body) in
  if bool_decide (word = "inf") || bool_decide (word = "infinity")
  then Ok (signed infinity)
  else if bool_decide (word = "nan") then Ok nan
  else
    let '(mantissa, exponent) :=
      split_at (λ c, Ascii.eqb (lower c) "e"%char) body in
    match mantissa_value mantissa,
          match exponent with
          | None => Some 0
          | Some e =>
              let '(neg, digits) := split_sign e in
              (λ v, if neg then - v.1 else v.1)
                <$> digits_value digits 0 0 false
          end with
    | Some (d, places), Some e =>
        Ok (signed (if d =? 0 then 0%float
                    else float_of_decimal d (e - places)))
    | _, _ => failure
    end.

(** The interpreter's conversions on the three kinds of axis values. *)
Definition sample_runtime : PyRuntime := {|
  py_int v :=
    match v with
    | VInt n => Ok n
    | VFloat f => trunc_float f
    | VStr s => int_of_str s
    end;
  py_float v :=
    match v with
    | VInt n =>
        if PrimFloat.eqb (PrimFloat.abs (float_of_Z n)) infinity
        then Raise (OverflowError "int too large to convert to float")
        else Ok (float_of_Z n)
    | VFloat f => Ok f
    | VStr s => float_of_str s
    end;
  repr_float := float_repr;
  repr_str := str_repr;
|}.

(** *** Backends and run environments *)

(** A backend whose session opens and whose every call fails. *)
Definition failing_backend : Backend := {|
  open_session _ _ := Ok ();
  generate _ _ := Raise (BackendError "connection refused");
  randint := 123456789;
|}.

(** A backend on which every call succeeds in two seconds. *)
Definition working_backend : Backend := {|
  open_session _ _ := Ok ();
  generate _ _ := Ok 2.0%float;
  randint := 123456789;
|}.

(** A backend that fails on the combinations with an odd ordinal. *)
Definition flaky_backend : Backend := {|
  open_session _ _ := Ok ();
  generate k _ := if Z.odd k then Raise (BackendError "out of memory")
                  else Ok 2.0%float;
  randint := 123456789;
|}.

(** A run environment without cancel requests. *)
Definition quiet_env (b : Backend) : RunEnv := {|
  backend := b;
  cancel_requested _ := None;
  now_started_at := 100; now_running := 100;
  now_progress k := 100 + k;
  now_error _ := 150;
  now_completed_at := 200; now_finished := 200;
|}.

(** A run environment in which a cancel request arrives while the
    combination with ordinal 5 is in flight. *)
Definition cancelling_env (b : Backend) : RunEnv := {|
  backend := b;
  cancel_requested k := if k =? 5 then Some 120 else None;
  now_started_at := 100; now_running := 100;
  now_progress k := 100 + k;
  now_error _ := 150;
  now_completed_at := 200; now_finished := 200;
|}.

Definition empty_world : World :=
  {| _experiments := ∅; _running_experiments := ∅ |}.

(** The world after a successful [create_experiment] from the empty one,
    with the id given. *)
Definition world_after_create (experiment : ExperimentCreate)
    (new_id : string) : World :=
  {| _experiments :=
       snd (routes.create_experiment default_settings experiment new_id
              10 10 ∅);
     _running_experiments := ∅ |}.

(** A stored experiment whose run has completed. *)
Definition completed_world : World :=
  fst (routes._execute_experiment_background default_settings sample_runtime
         (quiet_env working_backend) "exp-1"
         (snd (fst (routes.execute_experiment "exp-1" 20
                      (world_after_create sample_experiment_create
                         "exp-1"))))).


(** ** Statements *)

(** *** About [get_combination] *)

Definition axis_names_distinct (g : ParameterGrid) : Prop :=
  name (x_axis g) ≠ name (y_axis g) ∧
  name (x_axis g) ≠ name (z_axis g) ∧
  name (y_axis g) ≠ name (z_axis g).

Definition axis_values_NoDup (g : ParameterGrid) : Prop :=
  NoDup (values (x_axis g)) ∧ NoDup (values (y_axis g)) ∧
  NoDup (values (z_axis g)).

(** [get_combination] is one-to-one on [0, total_combinations) and reaches
    every element of the Cartesian product of the axis values. *)
Definition get_combination_bijective (g : ParameterGrid) : Prop :=
  (∀ i j, 0 ≤ i < total_combinations g → 0 ≤ j < total_combinations g →
          get_combination g i = get_combination g j → i = j) ∧
  (∀ xv yv zv, xv ∈ values (x_axis g) → yv ∈ values (y_axis g) →
               zv ∈ values (z_axis g) →
     ∃ i, 0 ≤ i < total_combinations g ∧
          get_combination g i = Ok (combination_dict g xv yv zv)).

(** The mapping returned for [index] gives [axis] the value [v]. *)
Definition yields (g : ParameterGrid) (index : Z)
    (axis : ParameterDefinition) (v : option value) : Prop :=
  ∃ d v', get_combination g index = Ok d ∧ v = Some v' ∧
          d !! name axis = Some v'.

(** Index 0 yields the first value of every axis, the last index the last
    value of every axis. *)
Definition first_and_last_values (g : ParameterGrid) : Prop :=
  (yields g 0 (x_axis g) (head (values (x_axis g))) ∧
   yields g 0 (y_axis g) (head (values (y_axis g))) ∧
   yields g 0 (z_axis g) (head (values (z_axis g)))) ∧
  (yields g (total_combinations g - 1) (x_axis g) (last (values (x_axis g))) ∧
   yields g (total_combinations g - 1) (y_axis g) (last (values (y_axis g))) ∧
   yields g (total_combinations g - 1) (z_axis g) (last (values (z_axis g)))).

(** The index is outside [0, total_combinations) and the call raises
    [IndexError]. *)
Definition raises_IndexError (g : ParameterGrid) (index : Z) : Prop :=
  ∃ msg, get_combination g index = Raise (IndexError msg).

(** Two grids that pass validation: one axis lists a value twice; two axes
    share a name. *)
Definition grid_repeated_value : ParameterGrid := {|
  x_axis := {| name := "cfg"; display_name := "CFG"; type := NUMERIC;
               values := [VInt 7; VInt 7] |};
  y_axis := {| name := "steps"; display_name := "Steps"; type := NUMERIC;
               values := [VInt 20] |};
  z_axis := {| name := "sampler_name"; display_name := "Sampler";
               type := ENUM; values := [VStr "euler"] |};
|}.

Definition grid_repeated_name : ParameterGrid := {|
  x_axis := {| name := "cfg"; display_name := "CFG"; type := NUMERIC;
               values := [VInt 4; VInt 6] |};
  y_axis := {| name := "cfg"; display_name := "CFG again"; type := NUMERIC;
               values := [VInt 8] |};
  z_axis := {| name := "sampler_name"; display_name := "Sampler";
               type := ENUM; values := [VStr "euler"] |};
|}.

(** *** About the routes *)

(** [total_images] as [create_experiment] computes it. *)
Definition requested_images (experiment : ExperimentCreate) : Z :=
  if multi_seed experiment
  then total_combinations (parameter_grid experiment) * num_seeds experiment
  else total_combinations (parameter_grid experiment).



(** The stored record after create, execute and a whole background run. *)
Definition record_after_run (experiment : ExperimentCreate) (env : RunEnv)
  : option ExperimentResponse :=
  _experiments
    (fst (routes._execute_experiment_background default_settings
            sample_runtime env "exp-1"
            (snd (fst (routes.execute_experiment "exp-1" 20
                         (world_after_create experiment "exp-1"))))))
    !! "exp-1".

(** The results returned by the executor in that run. *)
Definition results_of_run (experiment : ExperimentCreate) (env : RunEnv)
  : option (result (list GeneratedResult)) :=
  returned <$>
    snd (routes._execute_experiment_background default_settings
           sample_runtime env "exp-1"
           (snd (fst (routes.execute_experiment "exp-1" 20
                        (world_after_create experiment "exp-1"))))).

(** The number of results returned by the executor in that run. *)
Definition images_produced (experiment : ExperimentCreate) (env : RunEnv)
  : option Z :=
  match results_of_run experiment env with
  | Some (Ok rs) => Some (len rs)
  | _ => None
  end.

(** C5 as stated, for the image count: after a background run on a
    backend whose session opens and whose every call fails, the record
    has no image. *)
Definition all_failed_run_counts_no_image : Prop :=
  ∀ (settings : Settings) (rt : PyRuntime) (env : RunEnv)
    (experiment_id : string) (w : World) (e : ExperimentResponse) (u : unit),
    _experiments w !! experiment_id = Some e →
    open_session (backend env)
      (output_dir settings +:+ "/" +:+ experiment_id)
      (checkpoint (exp_workflow_config e)) = Ok u →
    (∀ k req, ∃ err, generate (backend env) k req = Raise err) →
    images_generated <$>
      (_experiments
         (routes._execute_experiment_background settings rt env
            experiment_id w).1 !! experiment_id)
    = Some 0.

(** The completed fixture experiment, executed a second time. *)
Definition requeued_world : World :=
  snd (fst (routes.execute_experiment "exp-1" 300 completed_world)).

(** *** About the run loop *)

(** The combinations in the order of the triple loop: Z outermost, X
    innermost, each value with its position. *)
Definition combinations (g : ParameterGrid)
  : list ((Z * value) * (Z * value) * (Z * value)) :=
  z ← enumerate (values (z_axis g));
  y ← enumerate (values (y_axis g));
  x ← enumerate (values (x_axis g));
  [(z, y, x)].

(** The test made before each combination:
    [self._running_experiments.get(exp_id_str, False)]. *)
Definition flag {S : Type} (exp_id_str : string) (st : LoopState S) : bool :=
  default false (running st !! exp_id_str).

(** What the loop body builds for the combination with ordinal [k]. *)
Definition request_for (rt : PyRuntime) (env : Backend)
    (g : ParameterGrid) (cfg : WorkflowConfig) (k : Z)
    (z y x : Z * value) : result Request :=
  sampler_kwargs ←
    ExperimentExecutor._build_sampler_kwargs rt
      (combination_dict g x.2 y.2 z.2)
      (ExperimentExecutor.seed_base env cfg + k);
  Ok {| latent_width := width cfg; latent_height := height cfg;
        latent_batch := 1;
        positive := prompt cfg; negative := negative_prompt cfg;
        sampler_kwargs := sampler_kwargs;
        save_filename := ExperimentExecutor.filename x.1 y.1 z.1 |}.

Definition attempt_for (rt : PyRuntime) (env : Backend)
    (g : ParameterGrid) (cfg : WorkflowConfig) (k : Z)
    (z y x : Z * value) : Attempt :=
  {| attempt_index := k;
     attempt_seed := ExperimentExecutor.seed_base env cfg + k;
     attempt_filename := ExperimentExecutor.filename x.1 y.1 z.1;
     attempt_params := combination_dict g x.2 y.2 z.2;
     attempt_request := request_for rt env g cfg k z y x |}.

(** The outcome of the backend work of that combination. *)
Definition outcome_for (rt : PyRuntime) (env : Backend)
    (g : ParameterGrid) (cfg : WorkflowConfig) (k : Z)
    (z y x : Z * value) : result float :=
  req ← request_for rt env g cfg k z y x; generate env k req.

Definition result_for (env : Backend) (g : ParameterGrid)
    (cfg : WorkflowConfig) (k : Z) (z y x : Z * value)
    (generation_time : float) : GeneratedResult :=
  {| parameters := combination_dict g x.2 y.2 z.2;
     image_path := ExperimentExecutor.filename x.1 y.1 z.1 +:+ ".png";
     result_seed := ExperimentExecutor.seed_base env cfg + k;
     generation_time := generation_time;
     index := k |}.

(** The message handed to the error callback when combination [k]
    fails with [e]. *)
Definition failure_message (k : Z) (e : exn) : string :=
  "Image " +:+ str_int k +:+ " failed: " +:+ exn_str e.

(** The state in which [execute_experiment] enters the loop. *)
Definition initial_state {S : Type} (exp_id_str : string)
    (registry : gmap string bool) (sh : S) : LoopState S :=
  {| running := <[exp_id_str := true]> registry; shared := sh;
     results := []; current_index := 0; attempts := [] |}.



(** The value of [return results]. *)
Definition ctl_results {S : Type}
    (c : ctl (LoopState S) (list GeneratedResult)) : list GeneratedResult :=
  match c with
  | Next st => results st
  | Return _ r => r
  end.

(** The store holds a record for the id whose image count is [n]. *)
Definition stored_with_images (experiment_id : string) (n : Z)
    (store : gmap string ExperimentResponse) : Prop :=
  ∃ e, store !! experiment_id = Some e ∧ images_generated e = n.


(** Another task calls [cancel_experiment] on the executor while the
    combination with ordinal 5 is in flight. *)
Definition cancel_during_fifth (experiment_id : string) (k : Z)
    (registry : gmap string bool) (sh : unit) : gmap string bool * unit :=
  if k =? 5
  then (snd (ExperimentExecutor.cancel_experiment experiment_id registry), sh)
  else (registry, sh).


(** The ordinals of the results a run returned. *)
Definition returned_indices {S : Type} (run : RunOutcome S) : list Z :=
  match returned run with
  | Ok rs => index <$> rs
  | Raise _ => []
  end.

(** The world after creating the fixture experiment and calling the
    execute route on it: the record is QUEUED. *)
Definition queued_world : World :=
  snd (fst (routes.execute_experiment "exp-1" 20
              (world_after_create sample_experiment_create "exp-1"))).

(** *** About the generated script *)

(** [sub] occurs in [s]. *)
Definition contains (sub s : string) : Prop :=
  ∃ pre post, s = pre +:+ sub +:+ post.















(** The grid of [test_create_experiment_too_many_images]: the fixture
    with 100 values on the X axis. *)
Definition large_grid : ParameterGrid := {|
  x_axis := {| name := "cfg"; display_name := "CFG"; type := NUMERIC;
               values := VInt <$> seqZ 1 100 |};
  y_axis := y_axis sample_parameter_grid;
  z_axis := z_axis sample_parameter_grid;
|}.

Definition too_large_create : ExperimentCreate := {|
  create_name := "Too Large";
  create_description := Some "This should fail";
  parameter_grid := large_grid;
  workflow_config := sample_workflow_config;
  multi_seed := false; num_seeds := 1;
  enable_wandb := false; wandb_tags := [];
|}.

(** The fixture configuration with the template not implemented. *)
Definition custom_template_config : WorkflowConfig := {|
  template := CUSTOM;
  prompt := "test"; negative_prompt := "";
  checkpoint := "test.safetensors";
  width := 512; height := 512; batch_size := 1; seed := -1;
  vae := None; loras := None; controlnet := None;
|}.

(** * Properties *)

(** ** Python primitives *)

Lemma len_nonneg {A} (l : list A) : 0 ≤ len l.
Proof. unfold len. lia. Qed.

Ltac Zbool :=
  repeat match goal with
    | |- context [?a <? ?b] =>
        first [ rewrite (proj2 (Z.ltb_lt a b)) by lia
              | rewrite (proj2 (Z.ltb_ge a b)) by lia ]
    | |- context [?a <=? ?b] =>
        first [ rewrite (proj2 (Z.leb_le a b)) by lia
              | rewrite (proj2 (Z.leb_gt a b)) by lia ]
    | |- context [?a =? ?b] =>
        first [ rewrite (proj2 (Z.eqb_eq a b)) by lia
              | rewrite (proj2 (Z.eqb_neq a b)) by lia ]
    end; cbn [orb andb negb].

Lemma py_getitem_in_range {A} (l : list A) (i : Z) :
  0 ≤ i < len l →
  ∃ a, l !! Z.to_nat i = Some a ∧ py_getitem l i = Ok a.
Proof.
  intros Hi. unfold py_getitem. Zbool.
  destruct (l !! Z.to_nat i) as [a|] eqn:E; [eauto|].
  apply lookup_ge_None in E. unfold len in Hi. lia.
Qed.

Lemma py_getitem_wraps {A} (l : list A) (i : Z) :
  - len l ≤ i < 0 → py_getitem l i = py_getitem l (i + len l).
Proof. intros Hi. unfold py_getitem. Zbool. reflexivity. Qed.

Lemma py_getitem_raises {A} (l : list A) (i : Z) :
  i < - len l ∨ len l ≤ i →
  py_getitem l i = Raise (IndexError "list index out of range").
Proof.
  intros Hi. pose proof (len_nonneg l). unfold py_getitem.
  destruct (Z.lt_ge_cases i 0); Zbool; reflexivity.
Qed.

Lemma py_getitem_Ok_elem_of {A} (l : list A) (i : Z) (a : A) :
  py_getitem l i = Ok a → a ∈ l.
Proof.
  unfold py_getitem. case (_ || _); [discriminate|].
  destruct (l !! _) eqn:E; [|discriminate].
  intros [= <-]. eapply list_elem_of_lookup_2, E.
Qed.

(** ** The parameter grid *)

Lemma validate_values_nonempty (v : list value) :
  is_Ok (validate_values v) → 0 < len v.
Proof.
  intros [a Ha]. destruct v; [discriminate|]. unfold len. simpl. lia.
Qed.

Lemma ParameterGrid_valid_counts (g : ParameterGrid) :
  ParameterGrid_valid g →
  0 < count (x_axis g) ∧ 0 < count (y_axis g) ∧ 0 < count (z_axis g).
Proof.
  intros (Hx & Hy & Hz). unfold count.
  auto using validate_values_nonempty.
Qed.

Section positions.
Variables nx ny nz : Z.
Hypothesis Hnx : 0 < nx.
Hypothesis Hny : 0 < ny.

Lemma positions_recompose (i : Z) :
  i = x_pos nx i + nx * (y_pos nx ny i + ny * z_pos nx ny i).
Proof.
  unfold x_pos, y_pos, z_pos.
  assert (Hp : 0 < nx * ny) by nia.
  pose proof (Z.div_mod i (nx * ny) ltac:(lia)) as H1.
  pose proof (Z.div_mod (i mod (nx * ny)) nx ltac:(lia)) as H2.
  rewrite (Z.mod_mod_divide i (nx * ny) nx) in H2
    by (exists ny; lia).
  nia.
Qed.

Lemma x_pos_range (i : Z) : 0 ≤ x_pos nx i < nx.
Proof. unfold x_pos. apply Z.mod_pos_bound. lia. Qed.

Lemma y_pos_range (i : Z) : 0 ≤ y_pos nx ny i < ny.
Proof.
  unfold y_pos. assert (Hp : 0 < nx * ny) by nia.
  pose proof (Z.mod_pos_bound i (nx * ny) Hp). split.
  - apply Z.div_pos; lia.
  - apply Z.div_lt_upper_bound; lia.
Qed.

Lemma z_pos_range (i : Z) :
  0 ≤ i < nx * ny * nz → 0 ≤ z_pos nx ny i < nz.
Proof.
  intros Hi. unfold z_pos. assert (Hp : 0 < nx * ny) by nia. split.
  - apply Z.div_pos; lia.
  - apply Z.div_lt_upper_bound; lia.
Qed.

Lemma positions_of_index (a b c : Z) :
  0 ≤ a < nx → 0 ≤ b < ny → 0 ≤ c < nz →
  let i := a + nx * (b + ny * c) in
  0 ≤ i < nx * ny * nz ∧
  x_pos nx i = a ∧ y_pos nx ny i = b ∧ z_pos nx ny i = c.
Proof.
  intros Ha Hb Hc i. subst i. unfold x_pos, y_pos, z_pos.
  assert (Hp : 0 < nx * ny) by nia.
  assert (Hab : 0 ≤ a + nx * b < nx * ny) by nia.
  assert (Hm : (a + nx * (b + ny * c)) mod (nx * ny) = a + nx * b).
  { symmetry. apply (Z.mod_unique _ _ c); [lia|lia]. }
  repeat split.
  - nia.
  - nia.
  - symmetry. apply (Z.mod_unique _ _ (b + ny * c)); lia.
  - rewrite Hm. symmetry. apply (Z.div_unique _ _ _ a); lia.
  - symmetry. apply (Z.div_unique _ _ _ (a + nx * b)); lia.
Qed.

Lemma positions_injective (i j : Z) :
  x_pos nx i = x_pos nx j → y_pos nx ny i = y_pos nx ny j →
  z_pos nx ny i = z_pos nx ny j → i = j.
Proof.
  intros Hx Hy Hz.
  rewrite (positions_recompose i), (positions_recompose j).
  congruence.
Qed.

Lemma positions_shift (i : Z) :
  x_pos nx (i + nx * ny * nz) = x_pos nx i ∧
  y_pos nx ny (i + nx * ny * nz) = y_pos nx ny i ∧
  z_pos nx ny (i + nx * ny * nz) = z_pos nx ny i + nz.
Proof.
  unfold x_pos, y_pos, z_pos. assert (Hp : 0 < nx * ny) by nia.
  repeat split.
  - replace (i + nx * ny * nz) with (i + (ny * nz) * nx) by lia.
    apply Z.mod_add. lia.
  - replace (i + nx * ny * nz) with (i + nz * (nx * ny)) by lia.
    rewrite Z.mod_add by lia. reflexivity.
  - replace (i + nx * ny * nz) with (i + nz * (nx * ny)) by lia.
    apply Z.div_add. lia.
Qed.
End positions.

(** On a validated grid no division fails, and [get_combination] is
    three list lookups at the computed positions. *)
Lemma get_combination_unfold (g : ParameterGrid) (i : Z) :
  ParameterGrid_valid g →
  get_combination g i =
    (xv ← py_getitem (values (x_axis g)) (x_pos (count (x_axis g)) i);
     yv ← py_getitem (values (y_axis g))
            (y_pos (count (x_axis g)) (count (y_axis g)) i);
     zv ← py_getitem (values (z_axis g))
            (z_pos (count (x_axis g)) (count (y_axis g)) i);
     Ok (combination_dict g xv yv zv)).
Proof.
  intros Hv. destruct (ParameterGrid_valid_counts g Hv) as (Hx & Hy & _).
  unfold get_combination, py_floordiv, py_mod.
  assert (Hp : 0 < count (x_axis g) * count (y_axis g)) by nia.
  destruct (Z.eqb_spec (count (x_axis g) * count (y_axis g)) 0); [lia|].
  destruct (Z.eqb_spec (count (x_axis g)) 0); [lia|]. reflexivity.
Qed.

Example total_combinations_sample :
  total_combinations sample_parameter_grid = 48.
Proof. reflexivity. Qed.

Example get_combination_sample_first :
  get_combination sample_parameter_grid 0
  = Ok (combination_dict sample_parameter_grid
          (VFloat 4.0) (VInt 15) (VStr "euler")).
Proof. reflexivity. Qed.

Example get_combination_sample_last :
  get_combination sample_parameter_grid 47
  = Ok (combination_dict sample_parameter_grid
          (VFloat 10.0) (VInt 30) (VStr "uni_pc")).
Proof. reflexivity. Qed.

Lemma combination_dict_lookup (g : ParameterGrid) (xv yv zv : value) :
  axis_names_distinct g →
  combination_dict g xv yv zv !! name (x_axis g) = Some xv ∧
  combination_dict g xv yv zv !! name (y_axis g) = Some yv ∧
  combination_dict g xv yv zv !! name (z_axis g) = Some zv.
Proof.
  intros (Hxy & Hxz & Hyz). unfold combination_dict.
  repeat split; by simplify_map_eq.
Qed.

Lemma combination_dict_inj (g : ParameterGrid) (xv yv zv xv' yv' zv' : value) :
  axis_names_distinct g →
  combination_dict g xv yv zv = combination_dict g xv' yv' zv' →
  xv = xv' ∧ yv = yv' ∧ zv = zv'.
Proof.
  intros Hd Heq.
  destruct (combination_dict_lookup g xv yv zv Hd) as (Hx & Hy & Hz).
  destruct (combination_dict_lookup g xv' yv' zv' Hd) as (Hx' & Hy' & Hz').
  rewrite Heq in Hx, Hy, Hz. repeat split; congruence.
Qed.

(** For an in-range index the three lookups succeed at the computed
    positions. *)
Lemma get_combination_in_range (g : ParameterGrid) (i : Z) :
  ParameterGrid_valid g → 0 ≤ i < total_combinations g →
  ∃ xv yv zv,
    values (x_axis g) !! Z.to_nat (x_pos (count (x_axis g)) i) = Some xv ∧
    values (y_axis g)
      !! Z.to_nat (y_pos (count (x_axis g)) (count (y_axis g)) i) = Some yv ∧
    values (z_axis g)
      !! Z.to_nat (z_pos (count (x_axis g)) (count (y_axis g)) i) = Some zv ∧
    get_combination g i = Ok (combination_dict g xv yv zv).
Proof.
  intros Hv Hi. destruct (ParameterGrid_valid_counts g Hv) as (Hx & Hy & Hz).
  rewrite (get_combination_unfold g i Hv).
  destruct (py_getitem_in_range (values (x_axis g)) _
              (x_pos_range _ Hx i)) as (xv & Hxl & ->).
  destruct (py_getitem_in_range (values (y_axis g)) _
              (y_pos_range _ _ Hx Hy i)) as (yv & Hyl & ->).
  destruct (py_getitem_in_range (values (z_axis g)) _
              (z_pos_range _ _ (count (z_axis g)) Hx Hy i Hi))
    as (zv & Hzl & ->).
  exists xv, yv, zv. auto.
Qed.

Lemma get_combination_at_positions (g : ParameterGrid) (a b c : Z)
    (xv yv zv : value) :
  ParameterGrid_valid g →
  0 ≤ a → 0 ≤ b → 0 ≤ c →
  values (x_axis g) !! Z.to_nat a = Some xv →
  values (y_axis g) !! Z.to_nat b = Some yv →
  values (z_axis g) !! Z.to_nat c = Some zv →
  let i := a + count (x_axis g) * (b + count (y_axis g) * c) in
  0 ≤ i < total_combinations g ∧
  get_combination g i = Ok (combination_dict g xv yv zv).
Proof.
  intros Hv Ha Hb Hc Hxl Hyl Hzl i.
  destruct (ParameterGrid_valid_counts g Hv) as (Hx & Hy & Hz).
  assert (Ha' : 0 ≤ a < count (x_axis g)).
  { apply lookup_lt_Some in Hxl. unfold count, len. lia. }
  assert (Hb' : 0 ≤ b < count (y_axis g)).
  { apply lookup_lt_Some in Hyl. unfold count, len. lia. }
  assert (Hc' : 0 ≤ c < count (z_axis g)).
  { apply lookup_lt_Some in Hzl. unfold count, len. lia. }
  destruct (positions_of_index _ _ _ Hx Hy a b c Ha' Hb' Hc')
    as (Hi & Hpx & Hpy & Hpz).
  fold i in Hi, Hpx, Hpy, Hpz. split; [exact Hi|].
  destruct (get_combination_in_range g i Hv Hi)
    as (xv' & yv' & zv' & Hx' & Hy' & Hz' & ->).
  rewrite Hpx in Hx'. rewrite Hpy in Hy'. rewrite Hpz in Hz'.
  congruence.
Qed.

Lemma get_combination_first (g : ParameterGrid) :
  ParameterGrid_valid g →
  ∃ x0 y0 z0,
    head (values (x_axis g)) = Some x0 ∧ head (values (y_axis g)) = Some y0 ∧
    head (values (z_axis g)) = Some z0 ∧
    get_combination g 0 = Ok (combination_dict g x0 y0 z0).
Proof.
  intros Hv. destruct (ParameterGrid_valid_counts g Hv) as (Hx & Hy & Hz).
  unfold count, len in Hx, Hy, Hz.
  destruct (values (x_axis g)) as [|x0 xs] eqn:Ex; [simpl in Hx; lia|].
  destruct (values (y_axis g)) as [|y0 ys] eqn:Ey; [simpl in Hy; lia|].
  destruct (values (z_axis g)) as [|z0 zs] eqn:Ez; [simpl in Hz; lia|].
  exists x0, y0, z0. repeat split.
  destruct (get_combination_at_positions g 0 0 0 x0 y0 z0 Hv) as [_ H];
    try lia; try (rewrite ?Ex, ?Ey, ?Ez; reflexivity).
  rewrite <- H. f_equal. lia.
Qed.

Lemma get_combination_last (g : ParameterGrid) :
  ParameterGrid_valid g →
  ∃ x1 y1 z1,
    last (values (x_axis g)) = Some x1 ∧ last (values (y_axis g)) = Some y1 ∧
    last (values (z_axis g)) = Some z1 ∧
    get_combination g (total_combinations g - 1)
    = Ok (combination_dict g x1 y1 z1).
Proof.
  intros Hv. destruct (ParameterGrid_valid_counts g Hv) as (Hx & Hy & Hz).
  assert (Hl : ∀ l : list value, 0 < len l →
            ∃ v, last l = Some v ∧ l !! Z.to_nat (len l - 1) = Some v).
  { intros l Hl. rewrite last_lookup.
    replace (Z.to_nat (len l - 1)) with (pred (length l))
      by (unfold len; lia).
    destruct (l !! pred (length l)) as [v|] eqn:E; [eauto|].
    apply lookup_ge_None in E. unfold len in Hl. lia. }
  destruct (Hl (values (x_axis g)) Hx) as (x1 & Hx1 & Hxl).
  destruct (Hl (values (y_axis g)) Hy) as (y1 & Hy1 & Hyl).
  destruct (Hl (values (z_axis g)) Hz) as (z1 & Hz1 & Hzl).
  exists x1, y1, z1. repeat split; try assumption.
  unfold count in Hx, Hy, Hz.
  destruct (get_combination_at_positions g
              (len (values (x_axis g)) - 1) (len (values (y_axis g)) - 1)
              (len (values (z_axis g)) - 1) x1 y1 z1 Hv
              ltac:(lia) ltac:(lia) ltac:(lia) Hxl Hyl Hzl) as [_ H].
  rewrite <- H. f_equal. unfold total_combinations, count. lia.
Qed.

(** C1 (as amended): on every validated grid the total is the product of
    the axis counts; index decoding (X fastest, Z slowest) is a bijection
    between [0, total) and the position triples, and [get_combination]
    returns the mapping built from the values at these positions, the first
    values at index 0 and the last values at index total-1.  When the three
    axis names are pairwise distinct the returned mapping gives each axis
    its first (last) value at index 0 (total-1); when moreover no axis
    lists a value twice, [get_combination] is a bijection from [0, total)
    onto the Cartesian product of the axis values. *)
Theorem get_combination_bijection (g : ParameterGrid) :
  ParameterGrid_valid g →
  let nx := count (x_axis g) in
  let ny := count (y_axis g) in
  let nz := count (z_axis g) in
  let total := total_combinations g in
  total = nx * ny * nz ∧
  (∀ i, 0 ≤ i < total →
     0 ≤ x_pos nx i < nx ∧ 0 ≤ y_pos nx ny i < ny ∧
     0 ≤ z_pos nx ny i < nz ∧
     ∃ xv yv zv,
       values (x_axis g) !! Z.to_nat (x_pos nx i) = Some xv ∧
       values (y_axis g) !! Z.to_nat (y_pos nx ny i) = Some yv ∧
       values (z_axis g) !! Z.to_nat (z_pos nx ny i) = Some zv ∧
       get_combination g i = Ok (combination_dict g xv yv zv)) ∧
  (∀ i j, x_pos nx i = x_pos nx j → y_pos nx ny i = y_pos nx ny j →
          z_pos nx ny i = z_pos nx ny j → i = j) ∧
  (∀ a b c, 0 ≤ a < nx → 0 ≤ b < ny → 0 ≤ c < nz →
     ∃ i, 0 ≤ i < total ∧
          x_pos nx i = a ∧ y_pos nx ny i = b ∧ z_pos nx ny i = c) ∧
  (∃ x0 y0 z0,
     head (values (x_axis g)) = Some x0 ∧ head (values (y_axis g)) = Some y0 ∧
     head (values (z_axis g)) = Some z0 ∧
     get_combination g 0 = Ok (combination_dict g x0 y0 z0)) ∧
  (∃ x1 y1 z1,
     last (values (x_axis g)) = Some x1 ∧ last (values (y_axis g)) = Some y1 ∧
     last (values (z_axis g)) = Some z1 ∧
     get_combination g (total - 1) = Ok (combination_dict g x1 y1 z1)) ∧
  (axis_names_distinct g → first_and_last_values g) ∧
  (axis_names_distinct g → axis_values_NoDup g →
   get_combination_bijective g).
Proof.
  intros Hv nx ny nz total.
  destruct (ParameterGrid_valid_counts g Hv) as (Hx & Hy & Hz).
  fold nx in Hx. fold ny in Hy. fold nz in Hz.
  split; [reflexivity|].
  split.
  { intros i Hi. pose proof (x_pos_range nx Hx i).
    pose proof (y_pos_range nx ny Hx Hy i).
    pose proof (z_pos_range nx ny nz Hx Hy i Hi).
    repeat (split; [lia|]). apply get_combination_in_range; assumption. }
  split; [intros i j; apply positions_injective; assumption|].
  split.
  { intros a b c Ha Hb Hc. exists (a + nx * (b + ny * c)).
    apply (positions_of_index nx ny nz Hx Hy a b c Ha Hb Hc). }
  split; [apply get_combination_first; assumption|].
  split; [apply get_combination_last; assumption|].
  split.
  { intros Hd.
    destruct (get_combination_first g Hv) as (x0 & y0 & z0 & ? & ? & ? & E0).
    destruct (get_combination_last g Hv) as (x1 & y1 & z1 & ? & ? & ? & E1).
    destruct (combination_dict_lookup g x0 y0 z0 Hd) as (? & ? & ?).
    destruct (combination_dict_lookup g x1 y1 z1 Hd) as (? & ? & ?).
    unfold first_and_last_values, yields. fold total.
    repeat split; eauto 10. }
  intros Hd (Nx & Ny & Nz'). split.
  - intros i j Hi Hj Heq.
    destruct (get_combination_in_range g i Hv Hi)
      as (xi & yi & zi & Hxi & Hyi & Hzi & Ei).
    destruct (get_combination_in_range g j Hv Hj)
      as (xj & yj & zj & Hxj & Hyj & Hzj & Ej).
    rewrite Ei, Ej in Heq.
    assert (Hc : combination_dict g xi yi zi = combination_dict g xj yj zj)
      by congruence.
    apply (combination_dict_inj g) in Hc as (-> & -> & ->); [|exact Hd].
    fold nx in Hxi, Hxj, Hyi, Hyj, Hzi, Hzj. fold ny in Hyi, Hyj, Hzi, Hzj.
    pose proof (x_pos_range nx Hx i). pose proof (x_pos_range nx Hx j).
    pose proof (y_pos_range nx ny Hx Hy i).
    pose proof (y_pos_range nx ny Hx Hy j).
    pose proof (z_pos_range nx ny nz Hx Hy i Hi).
    pose proof (z_pos_range nx ny nz Hx Hy j Hj).
    pose proof (NoDup_lookup _ _ _ _ Nx Hxi Hxj).
    pose proof (NoDup_lookup _ _ _ _ Ny Hyi Hyj).
    pose proof (NoDup_lookup _ _ _ _ Nz' Hzi Hzj).
    apply (positions_injective nx ny Hx Hy); lia.
  - intros xv yv zv Hxv Hyv Hzv.
    apply list_elem_of_lookup_1 in Hxv as [a Ha].
    apply list_elem_of_lookup_1 in Hyv as [b Hb].
    apply list_elem_of_lookup_1 in Hzv as [c Hc].
    exists (Z.of_nat a + nx * (Z.of_nat b + ny * Z.of_nat c)).
    apply get_combination_at_positions; try assumption; try lia;
      by rewrite Nat2Z.id.
Qed.

Lemma sample_parameter_grid_valid : ParameterGrid_valid sample_parameter_grid.
Proof. repeat split; eexists; reflexivity. Qed.

Lemma get_combination_bijection_witness :
  ParameterGrid_valid sample_parameter_grid ∧
  total_combinations sample_parameter_grid = 48 ∧
  get_combination_bijective sample_parameter_grid.
Proof.
  split; [exact sample_parameter_grid_valid|].
  split; [reflexivity|].
  apply (get_combination_bijection sample_parameter_grid
           sample_parameter_grid_valid).
  - repeat split; discriminate.
  - repeat split; simpl;
      repeat (apply NoDup_cons; split;
              [rewrite ?elem_of_cons, elem_of_nil; intuition discriminate|]);
      apply NoDup_nil_2.
Defined.

(** C1 as stated fails on validated grids: with a value listed twice on one
    axis two indices return the same mapping; with two axes of the same
    name the mapping has lost the X value, so index 0 does not yield the
    first X value and two indices coincide again. *)
Lemma get_combination_not_bijective :
  (ParameterGrid_valid grid_repeated_value ∧
   ¬ get_combination_bijective grid_repeated_value) ∧
  (ParameterGrid_valid grid_repeated_name ∧
   ¬ get_combination_bijective grid_repeated_name ∧
   ¬ first_and_last_values grid_repeated_name).
Proof.
  split; [|split; [|split]].
  - split; [repeat split; eexists; reflexivity|].
    intros [Hinj _].
    specialize (Hinj 0 1 ltac:(vm_compute; split; congruence)
                  ltac:(vm_compute; split; congruence) eq_refl).
    discriminate.
  - repeat split; eexists; reflexivity.
  - intros [Hinj _].
    specialize (Hinj 0 1 ltac:(vm_compute; split; congruence)
                  ltac:(vm_compute; split; congruence) eq_refl).
    discriminate.
  - intros [[(d & v & Hd & Hv & Hl) _] _].
    assert (E : get_combination grid_repeated_name 0
                = Ok (combination_dict grid_repeated_name
                        (VInt 4) (VInt 8) (VStr "euler"))) by reflexivity.
    assert (Hd' : d = combination_dict grid_repeated_name
                        (VInt 4) (VInt 8) (VStr "euler")) by congruence.
    assert (Hv' : v = VInt 4) by (simpl in Hv; congruence).
    subst d v.
    assert (Hl' : combination_dict grid_repeated_name
                    (VInt 4) (VInt 8) (VStr "euler") !! "cfg"
                  = Some (VInt 8)) by reflexivity.
    simpl in Hl. congruence.
Qed.

(** Shifting a negative index by the total reaches the same three values:
    the X and Y positions are unchanged and the negative Z position counts
    from the end of the Z values. *)
Lemma get_combination_wraps (g : ParameterGrid) (i : Z) :
  ParameterGrid_valid g →
  - total_combinations g ≤ i < 0 →
  get_combination g i = get_combination g (i + total_combinations g).
Proof.
  intros Hv Hi. destruct (ParameterGrid_valid_counts g Hv) as (Hx & Hy & Hz).
  rewrite !get_combination_unfold by assumption.
  unfold total_combinations in *.
  destruct (positions_shift _ _ (count (z_axis g)) Hx Hy i) as (-> & -> & ->).
  assert (Hz' : - count (z_axis g)
                ≤ z_pos (count (x_axis g)) (count (y_axis g)) i < 0).
  { unfold z_pos.
    assert (0 < count (x_axis g) * count (y_axis g)) by nia. split.
    - apply Z.div_le_lower_bound; nia.
    - apply Z.div_lt_upper_bound; lia. }
  rewrite (py_getitem_wraps (values (z_axis g))) by exact Hz'.
  reflexivity.
Qed.

Lemma get_combination_raises (g : ParameterGrid) (i : Z) :
  ParameterGrid_valid g →
  i < - total_combinations g ∨ total_combinations g ≤ i →
  get_combination g i = Raise (IndexError "list index out of range").
Proof.
  intros Hv Hi. destruct (ParameterGrid_valid_counts g Hv) as (Hx & Hy & Hz).
  rewrite get_combination_unfold by assumption.
  destruct (py_getitem_in_range (values (x_axis g)) _
              (x_pos_range _ Hx i)) as (xv & _ & ->).
  destruct (py_getitem_in_range (values (y_axis g)) _
              (y_pos_range _ _ Hx Hy i)) as (yv & _ & ->).
  simpl. rewrite py_getitem_raises; [reflexivity|].
  unfold total_combinations, z_pos in *. fold (count (z_axis g)).
  assert (0 < count (x_axis g) * count (y_axis g)) by nia.
  destruct Hi as [Hi|Hi]; [left|right].
  - apply Z.div_lt_upper_bound; nia.
  - apply Z.div_le_lower_bound; nia.
Qed.

(** C2 (as amended): on every validated grid [get_combination] raises
    [IndexError] exactly for the indices at or above [total_combinations]
    and below [-total_combinations]; an index in [-total_combinations, 0)
    returns the mapping of the index plus [total_combinations], and every
    index in [-total_combinations, total_combinations) returns a mapping. *)
Theorem get_combination_index_error (g : ParameterGrid) (i : Z) :
  ParameterGrid_valid g →
  (raises_IndexError g i
   ↔ i < - total_combinations g ∨ total_combinations g ≤ i) ∧
  (is_Ok (get_combination g i)
   ↔ - total_combinations g ≤ i < total_combinations g) ∧
  (- total_combinations g ≤ i < 0 →
   get_combination g i = get_combination g (i + total_combinations g)).
Proof.
  intros Hv.
  assert (Hin : ∀ j, 0 ≤ j < total_combinations g →
                     is_Ok (get_combination g j)).
  { intros j Hj.
    destruct (get_combination_in_range g j Hv Hj) as (? & ? & ? & _ & _ & _ & E).
    eexists; exact E. }
  assert (Hok : - total_combinations g ≤ i < total_combinations g →
                is_Ok (get_combination g i)).
  { intros Hi. destruct (Z.lt_ge_cases i 0).
    - rewrite get_combination_wraps by (assumption || lia).
      apply Hin. lia.
    - apply Hin. lia. }
  assert (Hraise : i < - total_combinations g ∨ total_combinations g ≤ i →
                   raises_IndexError g i).
  { intros Hi. eexists. apply get_combination_raises; assumption. }
  split; [|split].
  - split; [|exact Hraise]. intros [msg Hm].
    destruct (Z.lt_ge_cases i (- total_combinations g)); [lia|].
    destruct (Z.lt_ge_cases i (total_combinations g)); [|lia].
    destruct Hok as [d Hd]; [lia|]. congruence.
  - split; [|exact Hok]. intros [d Hd].
    destruct (Z.lt_ge_cases i (- total_combinations g)) as [Hlt|?].
    + destruct (Hraise (or_introl Hlt)) as [m Hm]. congruence.
    + destruct (Z.lt_ge_cases i (total_combinations g)) as [?|Hge]; [lia|].
      destruct (Hraise (or_intror Hge)) as [m Hm]. congruence.
  - apply get_combination_wraps. assumption.
Qed.

Lemma get_combination_index_error_witness :
  ParameterGrid_valid sample_parameter_grid ∧
  raises_IndexError sample_parameter_grid 48 ∧
  raises_IndexError sample_parameter_grid (-49) ∧
  get_combination sample_parameter_grid (-48)
  = get_combination sample_parameter_grid 0.
Proof.
  pose proof (get_combination_index_error sample_parameter_grid 48
                sample_parameter_grid_valid) as (H48 & _).
  pose proof (get_combination_index_error sample_parameter_grid (-49)
                sample_parameter_grid_valid) as (H49 & _).
  pose proof (get_combination_index_error sample_parameter_grid (-48)
                sample_parameter_grid_valid) as (_ & _ & Hw).
  split; [exact sample_parameter_grid_valid|].
  split; [apply H48; right; vm_compute; discriminate|].
  split; [apply H49; left; reflexivity|].
  apply Hw. split; [vm_compute; discriminate|reflexivity].
Defined.

(** C2 as stated fails: index [-1] is outside [0, 48) and the fixture grid
    returns its last combination for it instead of raising. *)
Lemma get_combination_negative_index_returns :
  ¬ (0 ≤ -1 < total_combinations sample_parameter_grid) ∧
  get_combination sample_parameter_grid (-1)
  = Ok (combination_dict sample_parameter_grid
          (VFloat 10.0) (VInt 30) (VStr "uni_pc")) ∧
  ¬ raises_IndexError sample_parameter_grid (-1).
Proof.
  split; [lia|]. split; [reflexivity|].
  intros [msg Hm]. discriminate Hm.
Qed.


(** ** Creating an experiment *)

Lemma create_experiment_over_limit (settings : Settings)
    (experiment : ExperimentCreate) (new_id : string)
    (t_created t_updated : datetime)
    (store : gmap string ExperimentResponse) :
  max_images_per_experiment settings < requested_images experiment →
  ∃ detail,
    routes.create_experiment settings experiment new_id t_created t_updated
      store
    = (Raise (HTTPException 400 detail), store).
Proof.
  intros Hover. unfold routes.create_experiment, requested_images in *.
  destruct (multi_seed experiment); Zbool; eauto.
Qed.

Lemma create_experiment_within_limit (settings : Settings)
    (experiment : ExperimentCreate) (new_id : string)
    (t_created t_updated : datetime)
    (store : gmap string ExperimentResponse) (d : string) :
  requested_images experiment ≤ max_images_per_experiment settings →
  create_description experiment = Some d →
  ∃ e,
    routes.create_experiment settings experiment new_id t_created t_updated
      store
    = (Ok e, <[new_id := e]> store) ∧
    id e = new_id ∧ status e = DRAFT ∧ images_generated e = 0 ∧
    progress e = 0.0%float ∧ total_images e = requested_images experiment ∧
    exp_parameter_grid e = parameter_grid experiment ∧
    exp_workflow_config e = workflow_config experiment.
Proof.
  intros Hle Hd. unfold routes.create_experiment, requested_images in *.
  rewrite Hd. destruct (multi_seed experiment); Zbool; simpl;
    eexists; repeat split.
Qed.

(** C3, at the input where the code departs from it: the fixture request
    with [description] sent as [null] asks for 48 images, under the limit
    of 500, and [create_experiment] answers with status 500 and stores no
    record, because the response model refuses the missing description. *)
Theorem create_experiment_null_description :
  requested_images null_description_create = 48 ∧
  requested_images null_description_create
  ≤ max_images_per_experiment default_settings ∧
  ∃ detail,
    routes.create_experiment default_settings null_description_create
      "exp-1" 10 10 ∅
    = (Raise (HTTPException 500 detail), ∅).
Proof.
  split; [reflexivity|]. split; [discriminate|].
  eexists. reflexivity.
Qed.

(** ** Terminal states *)

Lemma progress_callback_lookup (env : RunEnv) (experiment_id : string)
    (current total : Z) (r : GeneratedResult)
    (store : gmap string ExperimentResponse) (e : ExperimentResponse) :
  store !! experiment_id = Some e → total ≠ 0 →
  ∃ p, py_truediv current total = Ok p ∧
    routes.progress_callback env experiment_id current total r store
    = (<[experiment_id :=
           set_updated_at (now_progress env current)
             (set_progress p (set_images_generated current e))]> store,
       Ok ()).
Proof.
  intros He Ht. unfold routes.progress_callback, py_truediv.
  Zbool. eexists. split; [reflexivity|]. f_equal.
  apply map_eq. intros k. destruct (decide (k = experiment_id)) as [->|Hne].
  - rewrite lookup_insert_eq, !lookup_alter_eq, He. reflexivity.
  - rewrite lookup_insert_ne by congruence.
    rewrite !lookup_alter_ne by congruence. reflexivity.
Qed.

Lemma error_callback_lookup (env : RunEnv) (experiment_id msg : string)
    (store : gmap string ExperimentResponse) (k : string) :
  routes.error_callback env experiment_id msg store !! k
  = if decide (k = experiment_id)
    then (λ e, set_updated_at (now_error env msg) (set_error_message msg e))
           <$> store !! k
    else store !! k.
Proof.
  unfold routes.error_callback. case_decide as Hk.
  - subst k. apply lookup_alter_eq.
  - apply lookup_alter_ne. congruence.
Qed.





(** ** The progress callback *)

(** What the progress callback does to the stored record: the status
    stays, [images_generated] becomes the first argument and [progress]
    the first argument divided by the second, which the executor sets to
    [total_combinations]. *)
Lemma progress_callback_record (env : RunEnv) (experiment_id : string)
    (current total : Z) (r : GeneratedResult)
    (store : gmap string ExperimentResponse) (e : ExperimentResponse) :
  store !! experiment_id = Some e → total ≠ 0 →
  ∃ e', fst (routes.progress_callback env experiment_id current total r store)
          !! experiment_id = Some e' ∧
        status e' = status e ∧ total_images e' = total_images e ∧
        images_generated e' = current ∧
        Ok (progress e') = py_truediv current total ∧
        updated_at e' = now_progress env current.
Proof.
  intros He Ht.
  destruct (progress_callback_lookup env experiment_id current total r
              store e He Ht) as (p & Hp & ->).
  eexists. split; [apply lookup_insert_eq|]. simpl. rewrite Hp. auto.
Qed.

(** C9, at the inputs where the code departs from it.  With [multi_seed]
    and five seeds on the fixture grid the record carries
    [total_images = 240]; the executor passes the 48 combinations as the
    total, so the completed run ends with 48 images and progress 1.0
    where 48/240 is 1/5.  On a backend that fails every second
    combination the callback receives the ordinal plus one, so the record
    ends with [images_generated = 47] while 24 images were produced. *)
Theorem progress_callback_divides_by_combinations :
  (total_images <$> record_after_run multi_seed_create
                      (quiet_env working_backend) = Some 240 ∧
   images_generated <$> record_after_run multi_seed_create
                          (quiet_env working_backend) = Some 48 ∧
   progress <$> record_after_run multi_seed_create
                  (quiet_env working_backend) = Some 1.0%float ∧
   py_truediv 48 240 = Ok (1 / 5)%float) ∧
  (images_produced sample_experiment_create (quiet_env flaky_backend)
   = Some 24 ∧
   images_generated <$> record_after_run sample_experiment_create
                          (quiet_env flaky_backend) = Some 47).
Proof.
  split; [split; [|split; [|split]]|split]; vm_compute; reflexivity.
Qed.

(** ** The run registry *)

Lemma cancel_experiment_spec (experiment_id : string)
    (registry : gmap string bool) :
  (fst (ExperimentExecutor.cancel_experiment experiment_id registry) = true
   ↔ is_Some (registry !! experiment_id)) ∧
  (is_Some (registry !! experiment_id) →
   snd (ExperimentExecutor.cancel_experiment experiment_id registry)
   = <[experiment_id := false]> registry) ∧
  (registry !! experiment_id = None →
   ExperimentExecutor.cancel_experiment experiment_id registry
   = (false, registry)).
Proof.
  unfold ExperimentExecutor.cancel_experiment.
  destruct (registry !! experiment_id) as [b|]; simpl.
  - split; [split; eauto|]. split; [reflexivity|discriminate].
  - split; [split; [discriminate|intros [? ?]; discriminate]|].
    split; [intros [? ?]; discriminate|reflexivity].
Qed.

(** The [finally] clause: whatever happened, the id is gone. *)
Lemma execute_experiment_pops {S : Type} (settings : Settings)
    (rt : PyRuntime) (env : Backend)
    (interfere : Z → gmap string bool → S → gmap string bool * S)
    (exp_id_str : string) (g : ParameterGrid) (cfg : WorkflowConfig)
    (pcb : option (Z → Z → GeneratedResult → S → S * result unit))
    (ecb : option (string → S → S))
    (registry : gmap string bool) (sh : S) :
  running_after (ExperimentExecutor.execute_experiment settings rt env
                   interfere exp_id_str g cfg pcb ecb registry sh)
    !! exp_id_str = None.
Proof.
  unfold ExperimentExecutor.execute_experiment.
  destruct (open_session env _ _); simpl; apply lookup_delete_eq.
Qed.

(** C10: [cancel_experiment] returns true exactly when the id is in the
    registry, whatever the flag stored for it, and leaves the flag false,
    so a second call before the run exits returns true again; every exit
    of [execute_experiment] removes the id, after which
    [cancel_experiment] returns false and changes nothing and
    [is_running] is false; [is_running] is false for every id that is not
    in the registry. *)
Theorem cancel_experiment_registry {S : Type} (settings : Settings)
    (rt : PyRuntime) (env : Backend)
    (interfere : Z → gmap string bool → S → gmap string bool * S)
    (experiment_id : string) (g : ParameterGrid) (cfg : WorkflowConfig)
    (pcb : option (Z → Z → GeneratedResult → S → S * result unit))
    (ecb : option (string → S → S))
    (registry : gmap string bool) (sh : S) :
  (fst (ExperimentExecutor.cancel_experiment experiment_id registry) = true
   ↔ is_Some (registry !! experiment_id)) ∧
  (∀ flag,
     ExperimentExecutor.cancel_experiment experiment_id
       (<[experiment_id := flag]> registry)
     = (true, <[experiment_id := false]> registry)) ∧
  (is_Some (registry !! experiment_id) →
   fst (ExperimentExecutor.cancel_experiment experiment_id
          (snd (ExperimentExecutor.cancel_experiment experiment_id
                  registry))) = true) ∧
  (let after :=
     running_after (ExperimentExecutor.execute_experiment settings rt env
                      interfere experiment_id g cfg pcb ecb registry sh) in
   ExperimentExecutor.cancel_experiment experiment_id after = (false, after) ∧
   ExperimentExecutor.is_running experiment_id after = false) ∧
  (registry !! experiment_id = None →
   ExperimentExecutor.is_running experiment_id registry = false).
Proof.
  split; [apply cancel_experiment_spec|].
  split.
  { intros flag. unfold ExperimentExecutor.cancel_experiment.
    rewrite lookup_insert_eq, insert_insert_eq. reflexivity. }
  split.
  { intros Hs.
    destruct (cancel_experiment_spec experiment_id registry) as (_ & -> & _);
      [|exact Hs].
    unfold ExperimentExecutor.cancel_experiment.
    rewrite lookup_insert_eq. reflexivity. }
  split.
  { intros after.
    assert (Hn : after !! experiment_id = None)
      by apply execute_experiment_pops.
    split.
    - apply cancel_experiment_spec, Hn.
    - unfold ExperimentExecutor.is_running. rewrite Hn. reflexivity. }
  intros Hn. unfold ExperimentExecutor.is_running. rewrite Hn. reflexivity.
Qed.

Lemma cancel_experiment_registry_witness :
  let registry : gmap string bool := <["exp-1" := false]> ∅ in
  is_Some (registry !! "exp-1") ∧
  registry !! "exp-2" = None ∧
  fst (ExperimentExecutor.cancel_experiment "exp-1"
         (snd (ExperimentExecutor.cancel_experiment "exp-1" registry)))
  = true ∧
  ExperimentExecutor.is_running "exp-2" registry = false.
Proof.
  intros registry.
  assert (H1 : is_Some (registry !! "exp-1")) by (eexists; reflexivity).
  assert (H2 : registry !! "exp-2" = None) by reflexivity.
  split; [exact H1|]. split; [exact H2|].
  destruct (cancel_experiment_registry (S := unit) default_settings
              sample_runtime failing_backend (λ _ r s, (r, s)) "exp-1"
              sample_parameter_grid sample_workflow_config None None
              registry ()) as (_ & _ & Hsecond & _ & _).
  destruct (cancel_experiment_registry (S := unit) default_settings
              sample_runtime failing_backend (λ _ r s, (r, s)) "exp-2"
              sample_parameter_grid sample_workflow_config None None
              registry ()) as (_ & _ & _ & _ & Hrun).
  split; [exact (Hsecond H1)|exact (Hrun H2)].
Defined.

(** ** Loops *)

Lemma for_each_invariant {A St R} (P : St → Prop) (l : list A)
    (body : A → St → ctl St R) :
  (∀ a st, P st → P (ctl_state (body a st))) →
  ∀ st, P st → P (ctl_state (for_each l body st)).
Proof.
  intros Hb. induction l as [|a l IH]; intros st Hst; simpl; [exact Hst|].
  specialize (Hb a st Hst). destruct (body a st); simpl in *; auto.
Qed.

Lemma for_each_app {A St R} (l1 l2 : list A) (body : A → St → ctl St R)
    (st : St) :
  for_each (l1 ++ l2) body st
  = match for_each l1 body st with
    | Next st' => for_each l2 body st'
    | Return st' r => Return st' r
    end.
Proof.
  revert st. induction l1 as [|a l1 IH]; intros st; simpl; [reflexivity|].
  destruct (body a st); [apply IH|reflexivity].
Qed.

Lemma for_each_ext {A St R} (l : list A) (body body' : A → St → ctl St R) :
  (∀ a st, body a st = body' a st) →
  ∀ st, for_each l body st = for_each l body' st.
Proof.
  intros He. induction l as [|a l IH]; intros st; simpl; [reflexivity|].
  rewrite He. destruct (body' a st); [apply IH|reflexivity].
Qed.

Lemma for_each_singleton {A St R} (a : A) (body : A → St → ctl St R)
    (st : St) :
  for_each [a] body st = body a st.
Proof. simpl. destruct (body a st); reflexivity. Qed.

(** A loop over a flattened list is the nested loop. *)
Lemma for_each_bind {A B St R} (l : list A) (f : A → list B)
    (body : B → St → ctl St R) (st : St) :
  for_each (l ≫= f) body st = for_each l (λ a, for_each (f a) body) st.
Proof.
  revert st. induction l as [|a l IH]; intros st; [reflexivity|].
  rewrite bind_cons, for_each_app. simpl.
  destruct (for_each (f a) body st); [apply IH|reflexivity].
Qed.

Lemma enumerate_from_length {A} (n : Z) (l : list A) :
  length (enumerate_from n l) = length l.
Proof. revert n. induction l; intros n; simpl; auto. Qed.

Lemma enumerate_from_lookup {A} (n : Z) (l : list A) (i : nat) :
  enumerate_from n l !! i = (λ a, (n + Z.of_nat i, a)) <$> l !! i.
Proof.
  revert n i. induction l as [|a l IH]; intros n i; [reflexivity|].
  destruct i; simpl.
  - f_equal. f_equal. lia.
  - rewrite IH. destruct (l !! i); simpl; [|reflexivity].
    do 2 f_equal. lia.
Qed.

Lemma combinations_length (g : ParameterGrid) :
  len (combinations g) = total_combinations g.
Proof.
  unfold combinations, total_combinations, count, len, enumerate.
  generalize (values (x_axis g)) (values (y_axis g)) (values (z_axis g)).
  intros xs ys zs.
  assert (Hx : ∀ (z y : Z * value),
            length (enumerate_from 0 xs ≫= λ x, [(z, y, x)]) = length xs).
  { intros z y. rewrite <- (enumerate_from_length 0 xs).
    induction (enumerate_from 0 xs); simpl; auto. }
  assert (Hy : ∀ z : Z * value,
            length (enumerate_from 0 ys ≫= λ y,
                      enumerate_from 0 xs ≫= λ x, [(z, y, x)])
            = (length ys * length xs)%nat).
  { intros z. rewrite <- (enumerate_from_length 0 ys).
    induction (enumerate_from 0 ys) as [|y l IH]; [reflexivity|].
    rewrite bind_cons, length_app, Hx, IH. simpl. lia. }
  rewrite <- (enumerate_from_length 0 zs).
  induction (enumerate_from 0 zs) as [|z l IH]; [simpl; lia|].
  rewrite bind_cons, length_app, Hy. simpl length. lia.
Qed.

(** ** The run loop of the executor *)



Section run_loop.
Context {S : Type}.
Variable settings : Settings.
Variable rt : PyRuntime.
Variable env : Backend.
Variable interfere : Z → gmap string bool → S → gmap string bool * S.
Variable exp_id_str : string.
Variable g : ParameterGrid.
Variable cfg : WorkflowConfig.
Variable pcb : option (Z → Z → GeneratedResult → S → S * result unit).
Variable ecb : option (string → S → S).

Local Abbreviation loop_body :=
  (ExperimentExecutor.loop_body rt env interfere exp_id_str g cfg pcb ecb).
Local Abbreviation xyz_loop :=
  (ExperimentExecutor.xyz_loop rt env interfere exp_id_str g cfg pcb ecb).
Local Abbreviation execute_experiment :=
  (ExperimentExecutor.execute_experiment settings rt env interfere
     exp_id_str g cfg pcb ecb).
Local Abbreviation base := (ExperimentExecutor.seed_base env cfg).
Local Abbreviation on_error := (ExperimentExecutor.call_error_callback ecb).

(** The loop body on the flattened list of combinations. *)
Local Abbreviation step :=
  (λ c : (Z * value) * (Z * value) * (Z * value),
     loop_body c.1.1 c.1.2 c.2).

Lemma xyz_loop_flat (st : LoopState S) :
  xyz_loop st = for_each (combinations g) step st.
Proof.
  unfold ExperimentExecutor.xyz_loop, combinations.
  rewrite for_each_bind. apply for_each_ext. intros z st1.
  rewrite for_each_bind. apply for_each_ext. intros y st2.
  rewrite for_each_bind. apply for_each_ext. intros x st3.
  rewrite for_each_singleton. reflexivity.
Qed.

(** The flag is tested first: when it is false the body returns the
    results as they are and touches nothing. *)
Lemma loop_body_cancelled (z y x : Z * value) (st : LoopState S) :
  flag exp_id_str st = false →
  loop_body z y x st = Return st (results st).
Proof.
  unfold flag, ExperimentExecutor.loop_body. intros ->.
  destruct z, y, x. reflexivity.
Qed.

(** When the flag is true the combination is worked on to its end,
    whatever happens to the flag meanwhile, and the loop goes on. *)
Lemma loop_body_running (z y x : Z * value) (st : LoopState S) :
  flag exp_id_str st = true →
  let k := current_index st in
  let w := interfere k (running st) (shared st) in
  ∃ sh rs,
    loop_body z y x st
    = Next {| running := w.1; shared := sh; results := rs;
              current_index := k + 1;
              attempts := attempts st ++ [attempt_for rt env g cfg k z y x] |}
    ∧ match outcome_for rt env g cfg k z y x with
      | Raise e =>
          rs = results st ∧ sh = on_error (failure_message k e) w.2
      | Ok t =>
          rs = results st ++ [result_for env g cfg k z y x t] ∧
          match pcb with
          | None => sh = w.2
          | Some cb =>
              let c := cb (k + 1) (total_combinations g)
                         (result_for env g cfg k z y x t) w.2 in
              sh = match c.2 with
                   | Ok _ => c.1
                   | Raise e => on_error (failure_message k e) c.1
                   end
          end
      end.
Proof.
  intros Hf k w. unfold flag in Hf. unfold ExperimentExecutor.loop_body.
  destruct z as [z_idx z_value], y as [y_idx y_value], x as [x_idx x_value].
  rewrite Hf. cbn [negb]. subst w k.
  unfold outcome_for, attempt_for, request_for, result_for, failure_message.
  cbn [fst snd].
  destruct (interfere (current_index st) (running st) (shared st))
    as [running1 shared1]. cbn [fst snd].
  destruct (ExperimentExecutor._build_sampler_kwargs rt _ _) as [kw|e];
    [|cbn; eauto].
  cbn. destruct (generate env _ _) as [t|e]; [|eauto].
  destruct pcb as [cb|]; [|eauto].
  destruct (cb _ _ _ _) as [shared2 [u|e]]; cbn; eauto.
Qed.

(** The value returned from inside the loop is the results of the state
    the loop stopped in. *)
Lemma for_each_step_results (l : list ((Z * value) * (Z * value) * (Z * value)))
    (st : LoopState S) :
  ctl_results (for_each l step st) = results (ctl_state (for_each l step st)).
Proof.
  revert st. induction l as [|c l IH]; intros st; [reflexivity|].
  simpl. destruct (flag exp_id_str st) eqn:Hf.
  - destruct (loop_body_running c.1.1 c.1.2 c.2 st Hf) as (sh & rs & -> & _).
    apply IH.
  - rewrite loop_body_cancelled by exact Hf. reflexivity.
Qed.

(** A prefix of combinations that the loop went through added one
    attempt each. *)
Lemma for_each_step_attempts
    (l : list ((Z * value) * (Z * value) * (Z * value)))
    (st st' : LoopState S) :
  for_each l step st = Next st' →
  length (attempts st') = (length (attempts st) + length l)%nat ∧
  current_index st' = current_index st + len l.
Proof.
  revert st. induction l as [|c l IH]; intros st H.
  - injection H as <-. unfold len. simpl. split; lia.
  - simpl in H. destruct (flag exp_id_str st) eqn:Hf.
    + destruct (loop_body_running c.1.1 c.1.2 c.2 st Hf)
        as (sh & rs & E & _).
      rewrite E in H. apply IH in H as [H1 H2]. simpl in H1, H2.
      rewrite length_app in H1. unfold len in *. simpl in *. split; lia.
    + rewrite loop_body_cancelled in H by exact Hf. discriminate H.
Qed.





(** C6: the flag is tested before each combination and nowhere else.  A
    body entered with the flag false returns the results as they are
    without touching the state; a body entered with the flag true works
    its combination to the end and hands over to the next test, whatever
    happens to the flag meanwhile.  So when the flag is found false after
    a prefix of the combinations, the run returns exactly the results
    accumulated over that prefix and has attempted exactly the
    combinations of the prefix. *)
Theorem cancellation_at_boundaries (registry : gmap string bool) (sh : S) :
  (∀ z y x st, flag exp_id_str st = false →
     loop_body z y x st = Return st (results st)) ∧
  (∀ z y x st, flag exp_id_str st = true →
     ∃ st', loop_body z y x st = Next st' ∧
            current_index st' = current_index st + 1 ∧
            attempts st'
            = attempts st
                ++ [attempt_for rt env g cfg (current_index st) z y x]) ∧
  (∀ u pre suf st',
     open_session env (output_dir settings +:+ "/" +:+ exp_id_str)
       (checkpoint cfg) = Ok u →
     combinations g = pre ++ suf →
     for_each pre step (initial_state exp_id_str registry sh) = Next st' →
     flag exp_id_str st' = false →
     let run := execute_experiment registry sh in
     returned run = Ok (results st') ∧
     attempted run = attempts st' ∧
     len (attempted run) = len pre ∧
     shared_after run = shared st').
Proof.
  split; [intros z y x st; apply loop_body_cancelled|].
  split.
  { intros z y x st Hf.
    destruct (loop_body_running z y x st Hf) as (sh' & rs & E & _).
    eexists. split; [exact E|]. split; reflexivity. }
  intros u pre suf st' Hopen Hc Hpre Hf run.
  assert (Hloop : ctl_state (xyz_loop (initial_state exp_id_str registry sh))
                  = st' ∧
                  ctl_results (xyz_loop (initial_state exp_id_str registry sh))
                  = results st').
  { rewrite xyz_loop_flat, Hc, for_each_app, Hpre.
    destruct suf as [|c suf]; [split; reflexivity|].
    simpl. rewrite loop_body_cancelled by exact Hf. split; reflexivity. }
  destruct Hloop as [Hst Hres].
  subst run. unfold ExperimentExecutor.execute_experiment. rewrite Hopen.
  fold (initial_state exp_id_str registry sh). simpl.
  fold (ctl_results (xyz_loop (initial_state exp_id_str registry sh))).
  rewrite Hst, Hres. repeat split.
  apply for_each_step_attempts in Hpre as [Hlen _].
  unfold len. simpl in Hlen. lia.
Qed.

(** A combination that fails hands its message to the error callback
    and the loop goes on with the next ordinal. *)
Lemma loop_body_failure (z y x : Z * value) (st : LoopState S) (e : exn) :
  flag exp_id_str st = true →
  outcome_for rt env g cfg (current_index st) z y x = Raise e →
  let w := interfere (current_index st) (running st) (shared st) in
  loop_body z y x st
  = Next {| running := w.1;
            shared := on_error (failure_message (current_index st) e) w.2;
            results := results st;
            current_index := current_index st + 1;
            attempts := attempts st
              ++ [attempt_for rt env g cfg (current_index st) z y x] |}.
Proof.
  intros Hf Ho w.
  destruct (loop_body_running z y x st Hf) as (sh & rs & -> & H).
  rewrite Ho in H. destruct H as [-> ->]. reflexivity.
Qed.

Lemma outcome_for_all_fail (k : Z) (z y x : Z * value) :
  (∀ k req, ∃ e, generate env k req = Raise e) →
  ∃ e, outcome_for rt env g cfg k z y x = Raise e.
Proof.
  intros Hgen. unfold outcome_for.
  destruct (request_for rt env g cfg k z y x) as [req|e]; [|eauto].
  apply Hgen.
Qed.

(** On a backend that fails every call the results stay empty, and the
    shared state only sees the other tasks and the error callback. *)
Lemma xyz_loop_all_fail (P : S → Prop) (st : LoopState S) :
  (∀ k req, ∃ e, generate env k req = Raise e) →
  (∀ k r s, P s → P (interfere k r s).2) →
  (∀ msg s, P s → P (on_error msg s)) →
  P (shared st) → results st = [] →
  P (shared (ctl_state (xyz_loop st))) ∧
  results (ctl_state (xyz_loop st)) = [].
Proof.
  intros Hgen Hint Herr HP Hres. rewrite xyz_loop_flat.
  apply (for_each_invariant (λ st, P (shared st) ∧ results st = []));
    [|auto].
  intros c st1 [HP1 Hr1]. destruct (flag exp_id_str st1) eqn:Hf.
  - destruct (outcome_for_all_fail (current_index st1) c.1.1 c.1.2 c.2 Hgen)
      as [e He].
    rewrite (loop_body_failure _ _ _ _ e Hf He). simpl. auto.
  - rewrite loop_body_cancelled by exact Hf. auto.
Qed.

Lemma execute_experiment_all_fail (P : S → Prop)
    (registry : gmap string bool) (sh : S) (u : unit) :
  open_session env (output_dir settings +:+ "/" +:+ exp_id_str)
    (checkpoint cfg) = Ok u →
  (∀ k req, ∃ e, generate env k req = Raise e) →
  (∀ k r s, P s → P (interfere k r s).2) →
  (∀ msg s, P s → P (on_error msg s)) →
  P sh →
  returned (execute_experiment registry sh) = Ok [] ∧
  P (shared_after (execute_experiment registry sh)).
Proof.
  intros Hopen Hgen Hint Herr HP.
  unfold ExperimentExecutor.execute_experiment. rewrite Hopen.
  fold (initial_state exp_id_str registry sh). simpl.
  fold (ctl_results (xyz_loop (initial_state exp_id_str registry sh))).
  destruct (xyz_loop_all_fail P (initial_state exp_id_str registry sh)
              Hgen Hint Herr HP eq_refl) as [HP' Hr].
  rewrite xyz_loop_flat, for_each_step_results, <- xyz_loop_flat, Hr.
  auto.
Qed.

(** When no other task touches the flag, the loop goes through every
    combination. *)
Lemma for_each_step_uncancelled
    (l : list ((Z * value) * (Z * value) * (Z * value)))
    (st : LoopState S) :
  (∀ k r s, (interfere k r s).1 !! exp_id_str = r !! exp_id_str) →
  flag exp_id_str st = true →
  ∃ st', for_each l step st = Next st' ∧ flag exp_id_str st' = true.
Proof.
  intros Hint. revert st. induction l as [|c l IH]; intros st Hf; [eauto|].
  simpl. destruct (loop_body_running c.1.1 c.1.2 c.2 st Hf)
    as (sh & rs & -> & _).
  apply IH. unfold flag in *. simpl. rewrite Hint. exact Hf.
Qed.

Lemma execute_experiment_attempts_all (registry : gmap string bool) (sh : S)
    (u : unit) :
  open_session env (output_dir settings +:+ "/" +:+ exp_id_str)
    (checkpoint cfg) = Ok u →
  (∀ k r s, (interfere k r s).1 !! exp_id_str = r !! exp_id_str) →
  len (attempted (execute_experiment registry sh)) = total_combinations g.
Proof.
  intros Hopen Hint.
  unfold ExperimentExecutor.execute_experiment. rewrite Hopen.
  fold (initial_state exp_id_str registry sh). simpl.
  destruct (for_each_step_uncancelled (combinations g)
              (initial_state exp_id_str registry sh) Hint) as (st' & E & _).
  { unfold flag. simpl. rewrite lookup_insert_eq. reflexivity. }
  rewrite xyz_loop_flat, E. simpl.
  apply for_each_step_attempts in E as [Hlen _]. simpl in Hlen.
  rewrite <- combinations_length. unfold len. lia.
Qed.

End run_loop.


Lemma cancellation_at_boundaries_witness :
  let pre := take 6 (combinations sample_parameter_grid) in
  let suf := drop 6 (combinations sample_parameter_grid) in
  let run := ExperimentExecutor.execute_experiment default_settings
               sample_runtime working_backend (cancel_during_fifth "exp-1")
               "exp-1" sample_parameter_grid sample_workflow_config
               None None ∅ () in
  combinations sample_parameter_grid = pre ++ suf ∧
  len (attempted run) = 6 ∧
  returned_indices run = [0; 1; 2; 3; 4; 5].
Proof.
  intros pre suf run.
  assert (Hc : combinations sample_parameter_grid = pre ++ suf)
    by (symmetry; apply take_drop).
  split; [exact Hc|].
  destruct (cancellation_at_boundaries default_settings sample_runtime
              working_backend (cancel_during_fifth "exp-1") "exp-1"
              sample_parameter_grid sample_workflow_config None None ∅ ())
    as (_ & _ & Hrun).
  pose (st' := ctl_state
                 (for_each pre
                    (λ c, ExperimentExecutor.loop_body sample_runtime
                            working_backend (cancel_during_fifth "exp-1")
                            "exp-1" sample_parameter_grid
                            sample_workflow_config None None
                            c.1.1 c.1.2 c.2)
                    (initial_state "exp-1" (∅ : gmap string bool) ()))).
  assert (Hpre : for_each pre
                   (λ c, ExperimentExecutor.loop_body sample_runtime
                           working_backend (cancel_during_fifth "exp-1")
                           "exp-1" sample_parameter_grid
                           sample_workflow_config None None
                           c.1.1 c.1.2 c.2)
                   (initial_state "exp-1" (∅ : gmap string bool) ())
                 = Next st') by (vm_compute; reflexivity).
  assert (Hf : flag "exp-1" st' = false) by (vm_compute; reflexivity).
  specialize (Hrun () pre suf st' eq_refl Hc Hpre Hf).
  destruct Hrun as (Hret & _ & Hlen & _).
  split; [exact Hlen|]. unfold returned_indices. fold run in Hret.
  rewrite Hret. vm_compute. reflexivity.
Defined.

(** ** Failing combinations in the background task *)

Lemma concurrent_requests_quiet (env : RunEnv) (experiment_id : string)
    (k : Z) (registry : gmap string bool)
    (store : gmap string ExperimentResponse) :
  cancel_requested env k = None →
  routes.concurrent_requests env experiment_id k registry store
  = (registry, store).
Proof. unfold routes.concurrent_requests. intros ->. reflexivity. Qed.

Lemma concurrent_requests_images (env : RunEnv) (experiment_id : string)
    (k : Z) (registry : gmap string bool)
    (store : gmap string ExperimentResponse) (n : Z) :
  stored_with_images experiment_id n store →
  stored_with_images experiment_id n
    (routes.concurrent_requests env experiment_id k registry store).2.
Proof.
  intros (e & He & Hn). unfold routes.concurrent_requests.
  destruct (cancel_requested env k) as [now|]; [|exists e; auto].
  unfold routes.cancel_experiment. simpl. rewrite He.
  destruct (decide (status e ≠ RUNNING)); [exists e; auto|].
  destruct (ExperimentExecutor.cancel_experiment experiment_id registry)
    as [[|] registry']; simpl; [|exists e; auto].
  eexists. split; [apply lookup_insert_eq|exact Hn].
Qed.

Lemma error_callback_images (env : RunEnv) (experiment_id msg : string)
    (store : gmap string ExperimentResponse) (n : Z) :
  stored_with_images experiment_id n store →
  stored_with_images experiment_id n
    (routes.error_callback env experiment_id msg store).
Proof.
  intros (e & He & Hn). eexists. rewrite error_callback_lookup.
  destruct (decide (experiment_id = experiment_id)); [|congruence].
  rewrite He. split; [reflexivity|exact Hn].
Qed.

(** C5 (as amended): in the background task a combination whose backend
    work raises hands its message to the error callback and the loop goes
    on with the next ordinal; when the session opens and every backend
    call fails, the executor returns an empty result list, the task marks
    the record COMPLETED, and the image count of the record is what it
    was when the task started, 0 for a record as [create_experiment]
    stores it; with no cancel request every combination of the grid was
    attempted. *)
Theorem failing_combinations_do_not_abort (settings : Settings)
    (rt : PyRuntime) (env : RunEnv) (experiment_id : string) (w : World)
    (e : ExperimentResponse) (u : unit) :
  _experiments w !! experiment_id = Some e →
  open_session (backend env) (output_dir settings +:+ "/" +:+ experiment_id)
    (checkpoint (exp_workflow_config e)) = Ok u →
  (∀ k req, ∃ err, generate (backend env) k req = Raise err) →
  let out := routes._execute_experiment_background settings rt env
               experiment_id w in
  (∃ run e',
     out.2 = Some run ∧ returned run = Ok [] ∧
     _experiments out.1 !! experiment_id = Some e' ∧
     status e' = COMPLETED ∧ status e' ≠ FAILED ∧
     images_generated e' = images_generated e ∧
     (images_generated e = 0 → images_generated e' = 0) ∧
     ((∀ k, cancel_requested env k = None) →
      len (attempted run) = total_combinations (exp_parameter_grid e))) ∧
  (∀ z y x (st : LoopState (gmap string ExperimentResponse)) err,
     flag experiment_id st = true →
     outcome_for rt (backend env) (exp_parameter_grid e)
       (exp_workflow_config e) (current_index st) z y x = Raise err →
     let others := routes.concurrent_requests env experiment_id
                     (current_index st) (running st) (shared st) in
     ExperimentExecutor.loop_body rt (backend env)
       (routes.concurrent_requests env experiment_id) experiment_id
       (exp_parameter_grid e) (exp_workflow_config e)
       (Some (routes.progress_callback env experiment_id))
       (Some (routes.error_callback env experiment_id)) z y x st
     = Next {| running := others.1;
               shared := routes.error_callback env experiment_id
                           (failure_message (current_index st) err) others.2;
               results := results st;
               current_index := current_index st + 1;
               attempts := attempts st
                 ++ [attempt_for rt (backend env) (exp_parameter_grid e)
                       (exp_workflow_config e) (current_index st) z y x] |}).
Proof.
  intros He Hopen Hgen out. split.
  - subst out. unfold routes._execute_experiment_background. rewrite He.
    set (store1 := alter _ experiment_id (_experiments w)).
    set (run := ExperimentExecutor.execute_experiment _ _ _ _ _ _ _ _ _ _ _).
    assert (H1 : stored_with_images experiment_id (images_generated e) store1).
    { eexists. subst store1. rewrite lookup_alter_eq, He.
      split; reflexivity. }
    destruct (execute_experiment_all_fail settings rt (backend env)
                (routes.concurrent_requests env experiment_id) experiment_id
                (exp_parameter_grid e) (exp_workflow_config e)
                (Some (routes.progress_callback env experiment_id))
                (Some (routes.error_callback env experiment_id))
                (stored_with_images experiment_id (images_generated e))
                (_running_experiments w) store1 u Hopen Hgen)
      as [Hret (e1 & He1 & Hn1)].
    { intros k r s. apply concurrent_requests_images. }
    { intros msg s. apply error_callback_images. }
    { exact H1. }
    fold run in Hret, He1. exists run. eexists. simpl.
    split; [reflexivity|]. split; [exact Hret|]. rewrite Hret.
    rewrite lookup_alter_eq, He1. simpl.
    split; [reflexivity|]. split; [reflexivity|]. split; [discriminate|].
    split; [exact Hn1|]. split; [intros H0; rewrite <- H0; exact Hn1|].
    intros Hquiet. subst run.
    apply (execute_experiment_attempts_all settings rt (backend env)
             (routes.concurrent_requests env experiment_id) experiment_id
             (exp_parameter_grid e) (exp_workflow_config e) _ _
             (_running_experiments w) store1 u Hopen).
    intros k r s. rewrite concurrent_requests_quiet by apply Hquiet.
    reflexivity.
  - intros z y x st err Hf Ho others.
    exact (loop_body_failure rt (backend env)
             (routes.concurrent_requests env experiment_id) experiment_id
             (exp_parameter_grid e) (exp_workflow_config e)
             (Some (routes.progress_callback env experiment_id))
             (Some (routes.error_callback env experiment_id))
             z y x st err Hf Ho).
Qed.

Lemma queued_world_lookup :
  ∃ e, _experiments queued_world !! "exp-1" = Some e ∧
       status e = QUEUED ∧ images_generated e = 0 ∧
       exp_workflow_config e = sample_workflow_config ∧
       exp_parameter_grid e = sample_parameter_grid.
Proof.
  eexists. split; [|split; [|split; [|split]]]; vm_compute; reflexivity.
Qed.

Lemma failing_combinations_do_not_abort_witness :
  ∃ e e',
    _experiments queued_world !! "exp-1" = Some e ∧
    images_generated e = 0 ∧
    _experiments
      (routes._execute_experiment_background default_settings sample_runtime
         (quiet_env failing_backend) "exp-1" queued_world).1 !! "exp-1"
    = Some e' ∧
    status e' = COMPLETED ∧ images_generated e' = 0.
Proof.
  destruct queued_world_lookup as (e & He & _ & Hn & Hcfg & _).
  assert (Hopen : open_session (backend (quiet_env failing_backend))
                    (output_dir default_settings +:+ "/" +:+ "exp-1")
                    (checkpoint (exp_workflow_config e)) = Ok ())
    by reflexivity.
  assert (Hgen : ∀ k req, ∃ err,
            generate (backend (quiet_env failing_backend)) k req = Raise err)
    by (intros k req; eexists; reflexivity).
  destruct (failing_combinations_do_not_abort default_settings sample_runtime
              (quiet_env failing_backend) "exp-1" queued_world e ()
              He Hopen Hgen)
    as [(run & e' & _ & _ & He' & Hs & _ & _ & H0 & _) _].
  exists e, e'. split; [exact He|]. split; [exact Hn|].
  split; [exact He'|]. split; [exact Hs|exact (H0 Hn)].
Defined.

(** ** The generated script *)

Lemma append_assoc (s1 s2 s3 : string) :
  (s1 +:+ s2) +:+ s3 = s1 +:+ (s2 +:+ s3).
Proof.
  induction s1 as [|c s1 IH]; [reflexivity|].
  change (String c ((s1 +:+ s2) +:+ s3) = String c (s1 +:+ (s2 +:+ s3))).
  by rewrite IH.
Qed.



Lemma unlines_app (l1 l2 : list string) :
  unlines (l1 ++ l2) = unlines l1 +:+ unlines l2.
Proof.
  induction l1 as [|l l1 IH]; [reflexivity|].
  cbn [unlines app]. by rewrite IH, !append_assoc.
Qed.


Lemma contains_trans (a b c : string) :
  contains a b → contains b c → contains a c.
Proof.
  intros (p1 & q1 & ->) (p2 & q2 & ->).
  exists (p2 +:+ p1), (q1 +:+ q2). by rewrite !append_assoc.
Qed.


Section attempt_names.
Context {S : Type}.
Variable settings : Settings.
Variable rt : PyRuntime.
Variable env : Backend.
Variable interfere : Z → gmap string bool → S → gmap string bool * S.
Variable exp_id_str : string.
Variable g : ParameterGrid.
Variable cfg : WorkflowConfig.
Variable pcb : option (Z → Z → GeneratedResult → S → S * result unit).
Variable ecb : option (string → S → S).

Local Abbreviation step :=
  (λ c : (Z * value) * (Z * value) * (Z * value),
     ExperimentExecutor.loop_body rt env interfere exp_id_str g cfg pcb ecb
       c.1.1 c.1.2 c.2).



End attempt_names.


Lemma contains_line (i : nat) (lines : list string) (line sub : string) :
  lines !! i = Some line → contains sub line → contains sub (unlines lines).
Proof.
  intros Hl Hs. apply (contains_trans _ (line +:+ nl)).
  - destruct Hs as (pre & post & ->). exists pre, (post +:+ nl).
    by rewrite !append_assoc.
  - rewrite <- (take_drop_middle lines i line Hl), unlines_app.
    cbn [unlines]. exists (unlines (take i lines)),
                     (unlines (drop (Datatypes.S i) lines)).
    by rewrite !append_assoc.
Qed.





(** C5 as stated fails for the image count: the fixture experiment has
    completed with 48 images and is executed again; on a backend that
    fails every call the second run returns no result and ends
    COMPLETED, and the record still counts 48 images. *)
Lemma failed_rerun_keeps_image_count :
  (∃ e, _experiments requeued_world !! "exp-1" = Some e ∧
        status e = QUEUED ∧ images_generated e = 48) ∧
  status <$>
    (_experiments
       (routes._execute_experiment_background default_settings
          sample_runtime (quiet_env failing_backend) "exp-1"
          requeued_world).1 !! "exp-1") = Some COMPLETED ∧
  images_generated <$>
    (_experiments
       (routes._execute_experiment_background default_settings
          sample_runtime (quiet_env failing_backend) "exp-1"
          requeued_world).1 !! "exp-1") = Some 48 ∧
  ¬ all_failed_run_counts_no_image.
Proof.
  assert (He : ∃ e, _experiments requeued_world !! "exp-1" = Some e ∧
                    status e = QUEUED ∧ images_generated e = 48 ∧
                    exp_workflow_config e = sample_workflow_config)
    by (eexists; split; [|split; [|split]]; vm_compute; reflexivity).
  assert (Hn : images_generated <$>
                 (_experiments
                    (routes._execute_experiment_background default_settings
                       sample_runtime (quiet_env failing_backend) "exp-1"
                       requeued_world).1 !! "exp-1") = Some 48)
    by (vm_compute; reflexivity).
  split; [destruct He as (e & ? & ? & ? & _); eauto|].
  split; [vm_compute; reflexivity|]. split; [exact Hn|].
  intros Hall. destruct He as (e & He & _ & _ & Hcfg).
  specialize (Hall default_settings sample_runtime
                (quiet_env failing_backend) "exp-1" requeued_world e ()
                He).
  rewrite Hn in Hall.
  assert (H : Some 48 = Some 0); [|discriminate H].
  apply Hall.
  - rewrite Hcfg. reflexivity.
  - intros k req. eexists. reflexivity.
Qed.

(** ** The checks of the test suite *)

Example float_repr_examples :
  float_repr 4.0 = "4.0" ∧ float_repr 7.5 = "7.5" ∧
  float_repr (1 / 10) = "0.1" ∧ float_repr (1 / 3) = "0.3333333333333333" ∧
  float_repr 1e16 = "1e+16" ∧ float_repr (1 / 100000) = "1e-05" ∧
  float_repr (-2.5) = "-2.5".
Proof. repeat split; vm_compute; reflexivity. Qed.

Example sample_runtime_conversions :
  py_int sample_runtime (VFloat 7.5) = Ok 7 ∧
  py_int sample_runtime (VStr " 20 ") = Ok 20 ∧
  py_float sample_runtime (VInt 8) = Ok 8.0%float ∧
  py_float sample_runtime (VStr "7.5") = Ok 7.5%float ∧
  py_int sample_runtime (VStr "euler")
  = Raise (ValueError "invalid literal for int() with base 10: 'euler'").
Proof. repeat split; vm_compute; reflexivity. Qed.

(** [test_create_experiment] and [test_create_experiment_too_many_images] *)
Example create_experiment_tests :
  (∃ e, routes.create_experiment default_settings sample_experiment_create
          "exp-1" 10 10 ∅ = (Ok e, <["exp-1" := e]> ∅) ∧
        status e = DRAFT ∧ total_images e = 48) ∧
  requested_images too_large_create = 1200 ∧
  ∃ detail, routes.create_experiment default_settings too_large_create
              "exp-2" 10 10 ∅ = (Raise (HTTPException 400 detail), ∅).
Proof.
  split; [|split].
  - destruct (create_experiment_within_limit default_settings
                sample_experiment_create "exp-1" 10 10 ∅
                "Testing CFG vs Steps vs Sampler")
      as (e & He & _ & Hs & _ & _ & Ht & _);
      [vm_compute; discriminate|reflexivity|].
    exists e. split; [exact He|]. split; [exact Hs|]. rewrite Ht.
    reflexivity.
  - vm_compute. reflexivity.
  - apply create_experiment_over_limit. vm_compute. reflexivity.
Qed.

(** [test_generate_txt2img_script] *)
Example generate_script_test :
  ∃ script,
    WorkflowGenerator.generate_script sample_runtime sample_parameter_grid
      sample_workflow_config = Ok script ∧
    contains "from comfy_script.runtime import *" script ∧
    contains "load()" script ∧
    contains "for z_idx, sampler_name in enumerate(sampler_name_values)"
      script ∧
    contains "for y_idx, steps in enumerate(steps_values)" script ∧
    contains "for x_idx, cfg in enumerate(cfg_values)" script ∧
    contains "[4.0, 6.0, 8.0, 10.0]" script ∧
    contains "[15, 20, 25, 30]" script ∧
    contains "['euler', 'dpmpp_2m', 'uni_pc']" script.
Proof.
  eexists. split; [reflexivity|].
  unfold WorkflowGenerator._generate_txt2img_script.
  split; [eapply (contains_line 8); [vm_compute; reflexivity|];
          exists "", ""; reflexivity|].
  split; [eapply (contains_line 9); [vm_compute; reflexivity|];
          exists "", ""; reflexivity|].
  split; [eapply (contains_line 34); [vm_compute; reflexivity|];
          exists "    ", ":"; reflexivity|].
  split; [eapply (contains_line 35); [vm_compute; reflexivity|];
          exists "        ", ":"; reflexivity|].
  split; [eapply (contains_line 36); [vm_compute; reflexivity|];
          exists "            ", ":"; reflexivity|].
  split; [eapply (contains_line 13); [vm_compute; reflexivity|];
          exists "cfg_values = ", ""; reflexivity|].
  split; [eapply (contains_line 14); [vm_compute; reflexivity|];
          exists "steps_values = ", ""; reflexivity|].
  eapply (contains_line 15); [vm_compute; reflexivity|].
  exists "sampler_name_values = ", ""; reflexivity.
Qed.

(** [test_unsupported_template_raises_error] *)
Example generate_script_unsupported :
  WorkflowGenerator.generate_script sample_runtime sample_parameter_grid
    custom_template_config
  = Raise (ValueError "Unsupported template: WorkflowTemplate.CUSTOM").
Proof. reflexivity. Qed.

(** [test_cancel_experiment] and [test_is_running], on a fresh executor *)
Example executor_not_running :
  ExperimentExecutor.cancel_experiment "exp-1" ∅ = (false, ∅) ∧
  ExperimentExecutor.is_running "exp-1" ∅ = false.
Proof. split; reflexivity. Qed.

(** [test_execute_experiment] and [test_cancel_experiment] of the API:
    a created experiment is queued by execute, and cancel refuses it
    because it is not running. *)
Example execute_and_cancel_tests :
  fst (fst (routes.execute_experiment "exp-1" 20
              (world_after_create sample_experiment_create "exp-1")))
  = Ok "Experiment queued for execution" ∧
  fst (routes.cancel_experiment "exp-1" 20
         (world_after_create sample_experiment_create "exp-1"))
  = Raise (HTTPException 400 "Experiment is not running").
Proof. split; vm_compute; reflexivity. Qed.
